(** * filerefollow/morewikimedia.py: re-resolution and recovery of
      WikiMedia Commons pages saved under a binary file name

    A shallow embedding of [morewikimedia.py].  Python [str] values are
    lists of Unicode code points, [bytes] values are lists of bytes, the
    file system is a finite map from path strings to file contents
    together with a set of directory paths, and every function that
    touches the file system, the network or standard output is a
    computation in a state-and-exception monad whose state also keeps a
    chronological log of the operations performed.

    Outside the module, and taken as parameters: the HTML parser
    ([lxml.html.parse] followed by [doc.iter()]), [unquote],
    [str.lower] and the server.  [os.path] is the POSIX one.  Left out
    of the file system: parent directories, permissions and links; a
    path is the string the program passes, and two strings name two
    entries. *)

From Stdlib Require Import ZArith String Ascii.
From Stdlib Require Strings.Byte.
From stdpp Require Import base option list gmap.

Local Open Scope Z_scope.

(** ** Python values *)

(** A [str] is a sequence of code points; slicing and [startswith]
    count code points, not encoded bytes. *)
Abbreviation pystr := (list N).
Abbreviation bytes := (list Byte.byte).

(** An ASCII literal as a [str]. *)
Definition str (s : string) : pystr :=
  N_of_ascii <$> list_ascii_of_string s.

#[global] Instance byte_eq_dec : EqDecision Byte.byte.
Proof.
  intros x y. destruct (Byte.eqb x y) eqn:E.
  - left. by apply Byte.byte_dec_bl.
  - right. intros ->. by rewrite Byte.byte_dec_lb in E.
Defined.

(** [x.startswith(p)], for [str] and [bytes] alike. *)
Definition startswith {A} `{EqDecision A} (x p : list A) : bool :=
  bool_decide (p `prefix_of` x).

(** [x.rfind(c)] for a one-character needle: the highest index at which
    [c] occurs, or [-1]. *)
Fixpoint rfind (x : pystr) (c : N) : Z :=
  match x with
  | [] => -1
  | a :: x' =>
      let r := rfind x' c in
      if 0 <=? r then r + 1
      else if decide (a = c) then 0 else -1
  end.

(** [x[i:]] for [0 <= i]. *)
Definition slice_from {A} (i : Z) (x : list A) : list A :=
  drop (Z.to_nat i) x.

(** [x[:i]] for [0 <= i]. *)
Definition slice_to {A} (i : Z) (x : list A) : list A :=
  take (Z.to_nat i) x.

(** Truth value of an optional [str]: [None] and the empty string are
    false. *)
Definition truthy (o : option pystr) : bool :=
  match o with
  | Some (_ :: _) => true
  | _ => false
  end.

(** [bytes.upper()]: ASCII lower-case letters are mapped to upper case,
    every other byte is kept. *)
Definition byte_upper (b : Byte.byte) : Byte.byte :=
  let n := Byte.to_N b in
  if ((97 <=? n) && (n <=? 122))%N
  then default b (Byte.of_N (n - 32))
  else b.

Definition bytes_upper (x : bytes) : bytes := byte_upper <$> x.

(** ** os.path (POSIX flavour) *)

Definition sep : N := 47.     (* slash *)
Definition extsep : N := 46.  (* dot *)

(** [os.path.join(a, b)]. *)
Definition path_join (a b : pystr) : pystr :=
  if startswith b [sep] then b
  else if bool_decide (a = []) || bool_decide (last a = Some sep) then a ++ b
  else a ++ sep :: b.

(** Second component of [os.path.split(p)]: everything after the last
    slash. *)
Definition path_basename (p : pystr) : pystr :=
  slice_from (rfind p sep + 1) p.

(** [os.path.splitext(p)]: the extension starts at the last dot of the
    last path component, unless that component has only dots before
    it. *)
Definition splitext (p : pystr) : pystr * pystr :=
  let sepIndex := rfind p sep in
  let dotIndex := rfind p extsep in
  if sepIndex <? dotIndex then
    if forallb (fun c => bool_decide (c = extsep))
         (slice_from (sepIndex + 1) (slice_to dotIndex p))
    then (p, [])
    else (slice_to dotIndex p, slice_from dotIndex p)
  else (p, []).

(** ** Module constants *)

Definition pseudo_colon : pystr := [720%N].  (* U+02D0, not a real colon *)
Definition pseudo_protocol : pystr := str "File" ++ pseudo_colon.

Definition UA : pystr :=
  str "User-Agent: FileReFollow/0.2" ++
  str " (https://github.com/Poikilos/filerefollow) filerefollow/0.2".

Definition headers : list (pystr * pystr) := [(str "User-Agent", UA)].

(** ** Filename codec *)

(** [new = pseudo_protocol + sub], the marking done by [undo]. *)
Definition mark (sub : pystr) : pystr := pseudo_protocol ++ sub.

(** The name computed by [redownload_all] for a directory entry:
    [sub[5:]] under the full marker, [sub[1:]] under the one-character
    marker, nothing for an entry with neither prefix. *)
Definition unmark (sub : pystr) : option pystr :=
  if startswith sub pseudo_protocol then Some (slice_from 5 sub)
  else if startswith sub pseudo_colon then Some (slice_from 1 sub)
  else None.

(** [marker in n] *)
Fixpoint contains (n marker : pystr) : bool :=
  startswith n marker ||
  match n with
  | [] => false
  | _ :: n' => contains n' marker
  end.

(** ** Parsed documents *)

(** One item of [doc.iter()]: its tag and its attribute dictionary. *)
Record element := Element {
  tag : pystr;
  attrib : gmap pystr pystr;
}.

(** ** The outside world *)

(** What [print] and [sys.stdout.write] emit, one constructor per
    print statement of [download], [is_html_file], [redownload] and
    [redownload_all]. *)
Inductive message :=
| MsgDownloading (file_name : pystr)        (* Downloading <file_name> *)
| MsgProgress (dl total_length : Z)         (* the progress bar *)
| MsgNotDoctype (opener : bytes)            (* <opener> is not <!DOCTYPE *)
| MsgSrcNotIn (elt : element)               (* src is not in <elt> *)
| MsgAlreadyGot (binary_path got : pystr)   (* Warning: skipping ... *)
| MsgSkippingExisting (dst : pystr)         (* Skipping existing <dst> *)
| MsgMv (old new : pystr)                   (* mv <old> <new>, line 188 *)
| MsgDownloadingSrc (src : pystr)           (* # downloading <src> *)
| MsgFailed (src : pystr)                   (* Error: failed to download ... *)
| MsgSaved (dst : pystr)                    (* # saved <dst> *)
| MsgMvHtml (old new : pystr)               (* mv <old> <new>, line 209 *)
| MsgNoSource (html_path : pystr)           (* Warning: There was no source *)
| MsgMvEntry (old new : pystr)              (* mv <old> <new>, single-quoted *)
| MsgSkippingEntry (sub : pystr).           (* # skipping <sub> *)

(** Every operation on the file system, the network or standard output
    is logged, in the order in which it is issued. *)
Inductive event :=
| EvIsDir (p : pystr)
| EvMakedirs (p : pystr)
| EvIsFile (p : pystr)
| EvRead (p : pystr) (n : nat)
| EvParse (p : pystr)
| EvRemove (p : pystr)
| EvMove (old new : pystr)
| EvOpenWrite (p : pystr)
| EvWrite (p : pystr) (data : bytes)
| EvGet (url : pystr) (hdrs : list (pystr * pystr))
| EvPrint (m : message).

(** [response.headers.get('content-length')] as [download] reads it:
    absent, present but rejected by [int], or the integer. *)
Inductive length_header := NoLength | BadLength | Length (n : Z).

(** What [requests.get] gives: an exception, or a response with its
    length header and the chunks that [iter_content] yields
    ([response.content] is their concatenation). *)
Inductive reply :=
| RequestFailed
| Response (len : length_header) (chunks : list bytes).

Inductive exn :=
| ValueError (msg : string)
| TypeError
| ZeroDivisionError
| FileNotFoundError (p : pystr)
| FileExistsError (p : pystr)
| IsADirectoryError (p : pystr)
| ShutilError (p : pystr)
| ParserError (p : pystr)
| RequestException (url : pystr).

(** Regular files by path, directories by path, and the log.  Paths are
    the strings the program hands to the operating system; two distinct
    strings name distinct entries, and parent directories are not
    tracked. *)
Record world := World {
  files : gmap pystr bytes;
  dirs : gset pystr;
  trace : list event;
}.

Definition set_files (f : gmap pystr bytes) (w : world) : world :=
  World f (dirs w) (trace w).
Definition set_dirs (d : gset pystr) (w : world) : world :=
  World (files w) d (trace w).
Definition add_event (e : event) (w : world) : world :=
  World (files w) (dirs w) (trace w ++ [e]).

(** ** Computations: state and exceptions *)

Inductive result (A : Type) :=
| Ret (a : A)
| Raise (e : exn).
Arguments Ret {A} a.
Arguments Raise {A} e.

Definition M (A : Type) : Type := world → result A * world.

Definition ret {A} (a : A) : M A := λ w, (Ret a, w).
Definition raise {A} (e : exn) : M A := λ w, (Raise e, w).
Definition bind {A B} (m : M A) (k : A → M B) : M B :=
  λ w, match m w with
       | (Ret a, w') => k a w'
       | (Raise e, w') => (Raise e, w')
       end.

Declare Scope io_scope.
Delimit Scope io_scope with io.
Notation "x <- m ;; k" := (bind m (λ x, k))
  (at level 100, m at next level, right associativity) : io_scope.
Notation "m ;;; k" := (bind m (λ _, k))
  (at level 100, right associativity) : io_scope.
Local Open Scope io_scope.

Definition log (e : event) : M unit := λ w, (Ret (), add_event e w).
Definition print (m : message) : M unit := log (EvPrint m).
Definition when (b : bool) (m : M unit) : M unit := if b then m else ret ().

(** [os.path.isdir(p)] *)
Definition isdir (p : pystr) : M bool :=
  log (EvIsDir p);;; λ w, (Ret (bool_decide (p ∈ dirs w)), w).

(** [os.path.isfile(p)] *)
Definition isfile (p : pystr) : M bool :=
  log (EvIsFile p);;; λ w, (Ret (bool_decide (is_Some (files w !! p))), w).

(** [os.makedirs(p)] *)
Definition makedirs (p : pystr) : M unit :=
  log (EvMakedirs p);;;
  λ w, if bool_decide (p = []) then (Raise (FileNotFoundError p), w)
       else if bool_decide (is_Some (files w !! p)) || bool_decide (p ∈ dirs w)
       then (Raise (FileExistsError p), w)
       else (Ret (), set_dirs ({[p]} ∪ dirs w) w).

(** [open(p, 'rb')] followed by [f.read(n)] *)
Definition read_head (p : pystr) (n : nat) : M bytes :=
  log (EvRead p n);;;
  λ w, match files w !! p with
       | Some c => (Ret (take n c), w)
       | None => (Raise (if bool_decide (p ∈ dirs w) then IsADirectoryError p
                         else FileNotFoundError p), w)
       end.

(** [os.remove(p)] *)
Definition remove (p : pystr) : M unit :=
  log (EvRemove p);;;
  λ w, match files w !! p with
       | Some _ => (Ret (), set_files (delete p (files w)) w)
       | None => (Raise (if bool_decide (p ∈ dirs w) then IsADirectoryError p
                         else FileNotFoundError p), w)
       end.

(** [shutil.move(old, new)] of a regular file: into [new] when that is a
    directory, onto [new] otherwise. *)
Definition move (old new : pystr) : M unit :=
  log (EvMove old new);;;
  λ w, match files w !! old with
       | None => (Raise (FileNotFoundError old), w)
       | Some c =>
           if bool_decide (new ∈ dirs w) then
             let real_dst := path_join new (path_basename old) in
             if bool_decide (is_Some (files w !! real_dst))
                || bool_decide (real_dst ∈ dirs w)
             then (Raise (ShutilError real_dst), w)
             else (Ret (),
                   set_files (<[real_dst := c]> (delete old (files w))) w)
           else (Ret (), set_files (<[new := c]> (delete old (files w))) w)
       end.

(** [open(p, 'wb')]: the file is created or truncated. *)
Definition open_write (p : pystr) : M unit :=
  log (EvOpenWrite p);;;
  λ w, if bool_decide (p ∈ dirs w) then (Raise (IsADirectoryError p), w)
       else (Ret (), set_files (<[p := []]> (files w)) w).

(** [f.write(data)] on the file opened at [p]. *)
Definition write (p : pystr) (data : bytes) : M unit :=
  log (EvWrite p data);;;
  λ w, (Ret (), set_files (alter (λ c, c ++ data) p (files w)) w).

(** ** The program *)

Definition DOCTYPE : bytes := list_byte_of_string "<!DOCTYPE ".

(** The test made on the bytes read by [is_html_file]. *)
Definition is_doctype (opener : bytes) : bool :=
  startswith (bytes_upper opener) DOCTYPE.

(** [is_html_file(dst)] *)
Definition is_html_file (dst : pystr) : M bool :=
  opener <- read_head dst 10;;
  if is_doctype opener then ret true
  else (print (MsgNotDoctype opener);;; ret false).

(** The branch of lines 178-200 that was taken for one reference. *)
Inductive fetch_outcome :=
| SkippedExisting
| ReusedLeftover
| Downloaded
| FailedHtmlAgain.

(** State of the loop over the elements: [got] and [found_url]
    ([found_url = False] is [None]). *)
Record scan_state := ScanState {
  got : option pystr;
  found_url : option pystr;
}.

Section Program.

(** Collaborators outside the module: the HTML parser, giving the
    elements in [doc.iter()] order or failing; [urllib]'s [unquote];
    [str.lower]; and the server, whose reply may depend on the
    operations issued so far. *)
Variable lh_parse : bytes → option (list element).
Variable unquote : pystr → pystr.
Variable str_lower : pystr → pystr.
Variable server : list event → pystr → reply.

(** [requests.get(url, stream=True, headers=hdrs)] *)
Definition requests_get (url : pystr) (hdrs : list (pystr * pystr))
  : M (length_header * list bytes) :=
  λ w, match server (trace w) url with
       | RequestFailed =>
           (Raise (RequestException url), add_event (EvGet url hdrs) w)
       | Response len chunks =>
           (Ret (len, chunks), add_event (EvGet url hdrs) w)
       end.

(** The loop of [download] over [response.iter_content]. *)
Fixpoint write_chunks (file_name : pystr) (total_length dl : Z)
    (chunks : list bytes) : M unit :=
  match chunks with
  | [] => ret ()
  | data :: rest =>
      let dl := dl + Z.of_nat (length data) in
      write file_name data;;;
      (if total_length =? 0 then raise ZeroDivisionError
       else print (MsgProgress dl total_length));;;
      write_chunks file_name total_length dl rest
  end.

(** [download(url, file_name)] *)
Definition download (url file_name : pystr) : M unit :=
  open_write file_name;;;
  print (MsgDownloading file_name);;;
  response <- requests_get url headers;;
  match response.1 with
  | NoLength => write file_name (concat response.2)
  | BadLength => raise (ValueError "invalid literal for int()")
  | Length total_length => write_chunks file_name total_length 0 response.2
  end.

(** Lines 191-200 of [redownload]: the download and the check of what
    was downloaded. *)
Definition download_branch (src dst : pystr) : M fetch_outcome :=
  print (MsgDownloadingSrc src);;;
  download src dst;;;
  html <- is_html_file dst;;
  if html then
    print (MsgFailed src);;;
    remove dst;;;
    ret FailedHtmlAgain
  else
    print (MsgSaved dst);;;
    ret Downloaded.

(** Lines 185-200 of [redownload]: the destination is absent (or was
    just removed), so a leftover is reused or the file is downloaded. *)
Definition attempt (src dst : pystr) (encoded_dst : option pystr)
  : M fetch_outcome :=
  leftover <- (if truthy encoded_dst
               then isfile (default [] encoded_dst)
               else ret false);;
  if leftover then
    move (default [] encoded_dst) dst;;;
    print (MsgMv (default [] encoded_dst) dst);;;
    ret ReusedLeftover
  else download_branch src dst.

(** Lines 178-200 of [redownload]: what is done for one reference
    whose extension is wanted.  The branch taken is returned; the
    caller assigns [got] from it where lines 189 and 200 do. *)
Definition fetch (src dst : pystr) (encoded_dst : option pystr)
  : M fetch_outcome :=
  keep <- isfile dst;;
  keep <- (if keep then
             html <- is_html_file dst;;
             if html then (remove dst;;; ret false) else ret true
           else ret false);;
  if keep then
    print (MsgSkippingExisting dst);;; ret SkippedExisting
  else attempt src dst encoded_dst.

(** The value of [got] after a fetch. *)
Definition got_after (o : fetch_outcome) (src : pystr)
    (encoded_dst got : option pystr) : option pystr :=
  match o with
  | SkippedExisting => got
  | ReusedLeftover => encoded_dst
  | Downloaded => Some src
  | FailedHtmlAgain => got
  end.

(** [dot_exts = ["."+ext.lower() for ext in extensions]] *)
Definition dot_exts_of (extensions : list pystr) : list pystr :=
  (λ ext, extsep :: str_lower ext) <$> extensions.

(** The test of line 163, negated: the reference is wanted. *)
Definition wanted (dot_exts : list pystr) (src : pystr) : bool :=
  bool_decide (str_lower (splitext src).2 ∈ dot_exts).

(** Lines 166-200: the handling of a wanted reference [src]. *)
Definition fetch_reference (folder binary_path : option pystr)
    (src : pystr) (st : scan_state) : M scan_state :=
  let slash_i := rfind src sep in
  let encoded_name := slice_from (slash_i + 1) src in
  let name := unquote encoded_name in
  let encoded_dst :=
    if truthy folder
    then Some (path_join (default [] folder) encoded_name)
    else None in
  match binary_path with
  | None =>
      match folder with
      | None => raise TypeError
      | Some f =>
          o <- fetch src (path_join f name) encoded_dst;;
          ret (ScanState (got_after o src encoded_dst (got st)) (Some src))
      end
  | Some dst =>
      if truthy (got st) then
        print (MsgAlreadyGot dst (default [] (got st)));;;
        ret (ScanState (got st) (Some src))
      else
        o <- fetch src dst encoded_dst;;
        ret (ScanState (got_after o src encoded_dst (got st)) (Some src))
  end.

(** One iteration of the loop over [doc.iter()]. *)
Definition scan_element (dot_exts : list pystr)
    (folder binary_path : option pystr) (elt : element) (st : scan_state)
  : M scan_state :=
  match attrib elt !! str "src" with
  | None =>
      when (bool_decide (tag elt = str "source:")) (print (MsgSrcNotIn elt));;;
      ret st
  | Some src =>
      if negb (wanted dot_exts src) then ret (ScanState (got st) (Some src))
      else fetch_reference folder binary_path src st
  end.

(** [for elt in doc.iter(): ...] *)
Fixpoint scan (dot_exts : list pystr) (folder binary_path : option pystr)
    (elts : list element) (st : scan_state) : M scan_state :=
  match elts with
  | [] => ret st
  | elt :: rest =>
      st' <- scan_element dot_exts folder binary_path elt st;;
      scan dot_exts folder binary_path rest st'
  end.

(** Lines 127-140 of [redownload]: the check of the options and the
    creation of the folders.  Returns [folder] and [html_folder] as
    the rest of the function sees them. *)
Definition prepare_folders (folder binary_path html_folder : option pystr)
  : M (option pystr * pystr) :=
  folder <- (match binary_path with
             | Some _ =>
                 match folder with
                 | Some _ => raise (ValueError
                     "Destination folder cannot be set because binary_path is set")
                 | None => ret None
                 end
             | None =>
                 let folder := default (str "media") folder in
                 d <- isdir folder;;
                 when (negb d) (makedirs folder);;;
                 ret (Some folder)
             end);;
  html_folder <- (match html_folder with
                  | None =>
                      d <- isdir (str "html");;
                      when (negb d) (makedirs (str "html"));;;
                      ret (str "html")
                  | Some h => ret h
                  end);;
  ret (folder, html_folder).

(** [lh.parse(html_path)] *)
Definition parse (html_path : pystr) : M (list element) :=
  log (EvParse html_path);;;
  λ w, match files w !! html_path with
       | None => (Raise (FileNotFoundError html_path), w)
       | Some c =>
           match lh_parse c with
           | Some elts => (Ret elts, w)
           | None => (Raise (ParserError html_path), w)
           end
       end.

(** Lines 206-212 of [redownload]. *)
Definition finish (html_path html_folder : pystr) (st : scan_state) : M unit :=
  when (truthy (got st))
    (let moved_old := path_join html_folder (path_basename html_path) in
     move html_path moved_old;;;
     print (MsgMvHtml html_path moved_old));;;
  when (negb (truthy (found_url st))) (print (MsgNoSource html_path)).

(** [redownload(html_path, extensions, folder, binary_path, html_folder)] *)
Definition redownload (html_path : pystr) (extensions : list pystr)
    (folder binary_path html_folder : option pystr) : M unit :=
  fs <- prepare_folders folder binary_path html_folder;;
  doc <- parse html_path;;
  st <- scan (dot_exts_of extensions) fs.1 binary_path doc
          (ScanState None None);;
  finish html_path fs.2 st.

(** The body of the loop of [redownload_all] for one directory entry. *)
Definition redownload_entry (parent sub : pystr) : M unit :=
  if startswith sub pseudo_protocol then
    redownload (path_join parent sub) [str "mid"] None None None
  else if startswith sub pseudo_colon then
    move sub (slice_from 1 sub);;;
    print (MsgMvEntry sub (slice_from 1 sub))
  else print (MsgSkippingEntry sub).

(** [redownload_all(parent)], given what [os.path.realpath(parent)]
    and [os.listdir] of it return. *)
Fixpoint redownload_all (parent : pystr) (entries : list pystr) : M unit :=
  match entries with
  | [] => ret ()
  | sub :: rest =>
      redownload_entry parent sub;;;
      redownload_all parent rest
  end.

(** An element the loop passes over: it has no src, or its src has an
    extension that is not wanted. *)
Definition passed_over (dot_exts : list pystr) (e : element) : Prop :=
  ∀ src, attrib e !! str "src" = Some src →
         wanted dot_exts src = false.

End Program.

(** ** Marking: [undo] *)

(** [x.endswith(s)] *)
Definition endswith {A} `{EqDecision A} (x s : list A) : bool :=
  bool_decide (s `suffix_of` x).

Section Undo.

Variable str_lower : pystr → pystr.

(** The test of line 47 of [undo]. *)
Definition undo_wanted (sub : pystr) : bool :=
  endswith (str_lower sub) (str ".mid") &&
  negb (startswith sub pseudo_protocol).

(** The body of the loop of [undo] for one directory entry. *)
Definition undo_entry (sub : pystr) : M unit :=
  if undo_wanted sub then move sub (pseudo_protocol ++ sub) else ret ().

(** [undo()], given what [os.listdir] of the current directory
    returns. *)
Fixpoint undo (entries : list pystr) : M unit :=
  match entries with
  | [] => ret ()
  | sub :: rest => undo_entry sub;;; undo rest
  end.

(** The name of an entry after [undo] has passed over it. *)
Definition undone_name (sub : pystr) : pystr :=
  if undo_wanted sub then pseudo_protocol ++ sub else sub.

End Undo.

(** ** Names used by [redownload] for one reference *)

(** [src[slash_i+1:]], [os.path.join(folder, name)] and [encoded_dst] as
    lines 159-172 compute them when [binary_path] is not set. *)
Definition encoded_name_of (src : pystr) : pystr :=
  slice_from (rfind src sep + 1) src.

Definition dst_of (unquote : pystr → pystr) (f src : pystr) : pystr :=
  path_join f (unquote (encoded_name_of src)).

Definition enc_of (f src : pystr) : option pystr :=
  if truthy (Some f) then Some (path_join f (encoded_name_of src)) else None.

(** ** The documented shape of a user agent string *)

(** The docstring of [download] asks for a value formatted like
    [<client name>/<version> (<contact information>) <library>/<version>].
    The definitions below follow those words: names and versions are
    HTTP tokens, the contact is a non-empty parenthesised comment. *)
Definition tchar (c : N) : bool :=
  ((48 <=? c) && (c <=? 57) || (65 <=? c) && (c <=? 90) ||
   (97 <=? c) && (c <=? 122))%N ||
  bool_decide (c ∈ str "!#$%&'*+-.^_`|~").

Fixpoint span (p : N → bool) (x : pystr) : pystr * pystr :=
  match x with
  | [] => ([], [])
  | c :: x' =>
      if p c then let r := span p x' in (c :: r.1, r.2) else ([], x)
  end.

(** Reads [<name>/<version>] at the head of [x]; what follows it. *)
Definition product_version (x : pystr) : option pystr :=
  match span tchar x with
  | (_ :: _, 47%N :: r) =>
      match span tchar r with
      | (_ :: _, r') => Some r'
      | _ => None
      end
  | _ => None
  end.

Definition ua_well_formed (v : pystr) : bool :=
  match product_version v with
  | Some (32%N :: 40%N :: r) =>
      match span (λ c, negb (bool_decide (c = 40%N ∨ c = 41%N))) r with
      | (_ :: _, 41%N :: 32%N :: r') =>
          bool_decide (product_version r' = Some [])
      | _ => false
      end
  | _ => false
  end.

(** The URLs of the GET requests in a log. *)
Definition gets (t : list event) : list pystr :=
  omap (λ e, match e with EvGet url _ => Some url | _ => None end) t.

(** The header sets sent with the GET requests in a log. *)
Definition sent_headers (t : list event) : list (list (pystr * pystr)) :=
  omap (λ e, match e with EvGet _ h => Some h | _ => None end) t.

(** The reads in a log: which file, and how many bytes were asked for. *)
Definition reads (t : list event) : list (pystr * nat) :=
  omap (λ e, match e with EvRead p n => Some (p, n) | _ => None end) t.

(** The outcome that each line printed by [fetch] stands for. *)
Definition outcome_of (e : event) : option fetch_outcome :=
  match e with
  | EvPrint (MsgSkippingExisting _) => Some SkippedExisting
  | EvPrint (MsgMv _ _) => Some ReusedLeftover
  | EvPrint (MsgSaved _) => Some Downloaded
  | EvPrint (MsgFailed _) => Some FailedHtmlAgain
  | _ => None
  end.

(** The fetch outcomes recorded in a log, in order. *)
Definition outcomes (t : list event) : list fetch_outcome := omap outcome_of t.

(** The outcomes after which [got] is set. *)
Definition archives (o : fetch_outcome) : bool :=
  match o with
  | ReusedLeftover | Downloaded => true
  | SkippedExisting | FailedHtmlAgain => false
  end.

(** The moves in a log. *)
Definition moves (t : list event) : list (pystr * pystr) :=
  omap (λ e, match e with EvMove a b => Some (a, b) | _ => None end) t.

(** An event that is neither a request, nor a move, nor one of the
    lines that [fetch] prints for an outcome. *)
Definition plain (e : event) : bool :=
  match e with
  | EvGet _ _ | EvMove _ _ => false
  | EvPrint m =>
      match m with
      | MsgSkippingExisting _ | MsgMv _ _ | MsgSaved _ | MsgFailed _ => false
      | _ => true
      end
  | _ => true
  end.

(** A length header with which [download] runs to its end. *)
Definition length_ok (len : length_header) (chunks : list bytes) : bool :=
  match len with
  | NoLength => true
  | BadLength => false
  | Length n => negb (n =? 0) || bool_decide (chunks = [])
  end.

(** A reply with which [download] raises after the file was opened:
    the request itself fails, or the length header is not a number. *)
Definition broken_reply (r : reply) : bool :=
  match r with
  | RequestFailed => true
  | Response BadLength _ => true
  | Response _ _ => false
  end.

(** What the log of one fetch of [src] looks like: at most one request,
    sent to [src] with the module's headers, and, when the fetch
    returns, exactly the line of its outcome. *)
Definition fetch_log (src : pystr) (r : result fetch_outcome)
    (es : list event) : Prop :=
  (gets es = [] ∨ gets es = [src] ∧ sent_headers es = [headers]) ∧
  (∀ o, r = Ret o → outcomes es = [o]).

(** No leftover to reuse: [encoded_dst] is unset or empty, or names no
    file. *)
Definition no_leftover (enc : option pystr) (w : world) : Prop :=
  truthy enc = false ∨ files w !! default [] enc = None.

(** The references of a document: the values of the src attributes,
    in document order. *)
Definition refs (elts : list element) : list pystr :=
  omap (λ e, attrib e !! str "src") elts.

(** What the loop prints for the elements it passes over: a note for
    each element without src whose tag is the one compared at line
    154. *)
Definition skip_notes (elts : list element) : list event :=
  flat_map
    (λ e, match attrib e !! str "src" with
          | None => if bool_decide (tag e = str "source:")
                    then [EvPrint (MsgSrcNotIn e)] else []
          | Some _ => []
          end) elts.

(** [found_url] after the loop has passed over [elts]. *)
Definition last_found (elts : list element) (found : option pystr)
  : option pystr :=
  match last (refs elts) with
  | Some src => Some src
  | None => found
  end.

(** The invariant of the loop: [got] is set exactly when one of the
    fetches made so far ended as reused-leftover or downloaded. *)
Definition got_tracks (st st' : scan_state) (w w' : world) : Prop :=
  ∃ os, outcomes (trace w') = outcomes (trace w) ++ os ∧
        truthy (got st') = truthy (got st) || existsb archives os.

Definition add_events (es : list event) (w : world) : world :=
  World (files w) (dirs w) (trace w ++ es).

(** ** A sample download directory *)

(** The page of the module docstring, saved by a download manager under
    the marked name of the MIDI file it describes. *)
Definition sample_mp3 : pystr :=
  str "https://upload.wikimedia.org/wikipedia/commons/transcoded/a/a7/2-3_guajeo.mid/2-3_guajeo.mid.mp3".
Definition sample_ogg : pystr :=
  str "https://upload.wikimedia.org/wikipedia/commons/transcoded/a/a7/2-3_guajeo.mid/2-3_guajeo.mid.ogg".
Definition sample_mid : pystr :=
  str "https://upload.wikimedia.org/wikipedia/commons/a/a7/2-3_guajeo.mid".

Definition source_elt (src : pystr) : element :=
  Element (str "source") {[ str "src" := src ]}.

Definition sample_doc : list element :=
  [Element (str "html") ∅; Element (str "body") ∅; Element (str "audio") ∅;
   source_elt sample_mp3; source_elt sample_ogg; source_elt sample_mid].

Definition sample_page : bytes :=
  list_byte_of_string "<!DOCTYPE html><html><body><audio><source src='https://upload.wikimedia.org/wikipedia/commons/transcoded/a/a7/2-3_guajeo.mid/2-3_guajeo.mid.mp3'><source src='https://upload.wikimedia.org/wikipedia/commons/transcoded/a/a7/2-3_guajeo.mid/2-3_guajeo.mid.ogg'><source src='https://upload.wikimedia.org/wikipedia/commons/a/a7/2-3_guajeo.mid'></audio></body></html>".

(** A page without any src attribute, and one whose only src is
    empty. *)
Definition bare_doc : list element :=
  [Element (str "html") ∅; Element (str "body") ∅; Element (str "p") ∅].
Definition bare_page : bytes :=
  list_byte_of_string "<!DOCTYPE html><html><body><p>gone</p></body></html>".

Definition empty_src_doc : list element :=
  [Element (str "html") ∅; Element (str "body") ∅; Element (str "audio") ∅;
   source_elt []].
Definition empty_src_page : bytes :=
  list_byte_of_string "<!DOCTYPE html><html><body><audio><source src=''></audio></body></html>".

(** The parser on these three pages. *)
Definition sample_parse (c : bytes) : option (list element) :=
  if decide (c = sample_page) then Some sample_doc
  else if decide (c = bare_page) then Some bare_doc
  else if decide (c = empty_src_page) then Some empty_src_doc
  else None.

(** [unquote] on names without percent escapes, [str.lower] on ASCII. *)
Definition plain_unquote (x : pystr) : pystr := x.
Definition ascii_lower (x : pystr) : pystr :=
  (λ c, if ((65 <=? c) && (c <=? 90))%N then (c + 32)%N else c) <$> x.

(** A server that answers every request with a small MIDI file and no
    length header. *)
Definition sample_midi : bytes := list_byte_of_string "MThd".
Definition sample_server (_ : list event) (_ : pystr) : reply :=
  Response NoLength [sample_midi].

Definition sample_parent : pystr := str "/home/user/Downloads".
Definition sample_sub : pystr := pseudo_protocol ++ str "2-3_guajeo.mid".
Definition sample_path : pystr := path_join sample_parent sample_sub.
Definition sample_dst : pystr := str "media/2-3_guajeo.mid".

(** First run: only the page is there. *)
Definition fresh_world : world :=
  World {[ sample_path := sample_page ]} ∅ [].

(** The MIDI file is already in place, the page is still there. *)
Definition settled_world : world :=
  World {[ sample_path := sample_page; sample_dst := sample_midi ]}
        {[ str "media"; str "html" ]} [].

(** Pages without a usable reference. *)
Definition bare_world : world := World {[ sample_path := bare_page ]} ∅ [].
Definition empty_src_world : world :=
  World {[ sample_path := empty_src_page ]} ∅ [].

(** The batch step and [redownload] on the sample page. *)
Definition sample_entry (w : world) : result () * world :=
  redownload_entry sample_parse plain_unquote ascii_lower sample_server
    sample_parent sample_sub w.

Definition sample_redownload (folder binary_path html_folder : option pystr)
    (w : world) : result () * world :=
  redownload sample_parse plain_unquote ascii_lower sample_server
    sample_path [str "mid"] folder binary_path html_folder w.

(** The stages of the first run: after the folders are prepared, after
    the page is parsed, after the loop. *)
Definition fresh_prepared : world :=
  (prepare_folders None None None fresh_world).2.
Definition fresh_parsed : world :=
  (parse sample_parse sample_path fresh_prepared).2.
Definition fresh_scanned : world :=
  (scan plain_unquote ascii_lower sample_server
     (dot_exts_of ascii_lower [str "mid"]) (Some (str "media")) None
     sample_doc (ScanState None None) fresh_parsed).2.

(** ** Further sample data *)

(** A server that declares eight bytes and sends them in two chunks,
    one that answers with a page again, and one that cannot be
    reached. *)
Definition chunked_server (_ : list event) (_ : pystr) : reply :=
  Response (Length 8) [sample_midi; sample_midi].
Definition markup_server (_ : list event) (_ : pystr) : reply :=
  Response NoLength [sample_page].
Definition failing_server (_ : list event) (_ : pystr) : reply :=
  RequestFailed.

(** The elements of the sample page before its MIDI reference. *)
Definition sample_pre : list element :=
  [Element (str "html") ∅; Element (str "body") ∅; Element (str "audio") ∅;
   source_elt sample_mp3; source_elt sample_ogg].

(** A file under the one-character marker, a page saved without any
    marker, and a directory in which the name media is taken by a
    file. *)
Definition sample_name : pystr := str "2-3_guajeo.mid".
Definition legacy_world : world :=
  World {[ pseudo_colon ++ sample_name := sample_midi ]} ∅ [].
Definition unmarked_world : world :=
  World {[ sample_name := sample_page ]} ∅ [].
Definition taken_world : world :=
  World {[ sample_path := sample_page; str "media" := sample_midi ]} ∅ [].

(** A listing without marked entries, and one whose second entry is
    under the one-character marker but not in the current directory. *)
Definition plain_listing : list pystr := [str "notes.txt"; str "cover.png"].
Definition missing_entry : pystr := pseudo_colon ++ str "gone.mid".




(** * Properties *)

(** ** Filename codec *)

Lemma startswith_app {A} `{EqDecision A} (p x : list A) :
  startswith (p ++ x) p = true.
Proof. apply bool_decide_eq_true. by apply prefix_app_r. Qed.

Lemma unmark_mark_any (n : pystr) : unmark (mark n) = Some n.
Proof.
  unfold unmark, mark. by rewrite startswith_app.
Qed.

(** C6: for every file name [n] that does not contain the marker,
    unmarking the marked name gives [n] back. *)
Theorem unmark_mark (n : pystr) :
  contains n pseudo_protocol = false →
  unmark (mark n) = Some n.
Proof. intros _. apply unmark_mark_any. Qed.

Lemma unmark_mark_witness :
  contains (str "2-3_guajeo.mid") pseudo_protocol = false ∧
  unmark (mark (str "2-3_guajeo.mid")) = Some (str "2-3_guajeo.mid").
Proof.
  split; [reflexivity | apply (unmark_mark (str "2-3_guajeo.mid")); reflexivity].
Defined.

(** ** Format sniffer *)

Lemma DOCTYPE_length : length DOCTYPE = 10%nat.
Proof. reflexivity. Qed.

Lemma bytes_upper_DOCTYPE : bytes_upper DOCTYPE = DOCTYPE.
Proof. reflexivity. Qed.

Lemma prefix_take_length {A} (p x : list A) :
  p `prefix_of` take (length p) x ↔ p `prefix_of` x.
Proof.
  split.
  - intros [k Hk]. exists (k ++ drop (length p) x).
    by rewrite app_assoc, <- Hk, take_drop.
  - intros [k ->]. by rewrite take_app_length.
Qed.

Lemma is_doctype_take (c : bytes) :
  is_doctype (take 10 c) = true ↔ DOCTYPE `prefix_of` bytes_upper c.
Proof.
  unfold is_doctype, startswith. rewrite bool_decide_eq_true.
  unfold bytes_upper. rewrite fmap_take.
  rewrite <- DOCTYPE_length. apply prefix_take_length.
Qed.

Lemma is_html_file_run (dst : pystr) (c : bytes) (w : world) :
  files w !! dst = Some c →
  is_html_file dst w =
    (Ret (is_doctype (take 10 c)),
     add_events
       (EvRead dst 10 ::
        if is_doctype (take 10 c) then []
        else [EvPrint (MsgNotDoctype (take 10 c))]) w).
Proof.
  intros Hc. unfold is_html_file, read_head, bind, log; simpl.
  rewrite Hc. destruct (is_doctype (take 10 c)); simpl.
  - reflexivity.
  - unfold add_events, add_event; simpl. by rewrite <- app_assoc.
Qed.

(** C7: the sniffer asks for 10 bytes only, its answer is a function of
    those, and it says markup exactly when the upper-cased leading
    bytes are the declaration prefix; so a file starting with the exact
    prefix is markup whatever follows, and a file whose case-normalised
    start differs is not. *)
Theorem is_html_file_sniffs_prefix (dst : pystr) (c : bytes) (w : world) :
  files w !! dst = Some c →
  ∃ w',
    is_html_file dst w = (Ret (is_doctype (take 10 c)), w') ∧
    files w' = files w ∧
    reads (trace w') = reads (trace w) ++ [(dst, 10%nat)] ∧
    (is_doctype (take 10 c) = true ↔ DOCTYPE `prefix_of` bytes_upper c) ∧
    (∀ rest, c = DOCTYPE ++ rest → is_doctype (take 10 c) = true) ∧
    (¬ DOCTYPE `prefix_of` bytes_upper c → is_doctype (take 10 c) = false).
Proof.
  intros Hc. eexists. split; [by apply is_html_file_run |].
  split; [reflexivity |]. split.
  - unfold reads; simpl. rewrite omap_app; simpl.
    by destruct (is_doctype (take 10 c)).
  - split; [apply is_doctype_take |]. split.
    + intros rest ->. apply is_doctype_take.
      unfold bytes_upper. rewrite fmap_app.
      fold (bytes_upper DOCTYPE). rewrite bytes_upper_DOCTYPE.
      by apply prefix_app_r.
    + intros Hn. apply not_true_is_false. by rewrite is_doctype_take.
Qed.

Lemma is_html_file_sniffs_prefix_witness :
  let w := World {[ str "a.mid" := list_byte_of_string "<!doctype html>" ]} ∅ [] in
  ∃ w', is_html_file (str "a.mid") w = (Ret true, w') ∧ files w' = files w.
Proof.
  intros w.
  destruct (is_html_file_sniffs_prefix (str "a.mid")
              (list_byte_of_string "<!doctype html>") w eq_refl)
    as (w' & Hrun & Hfiles & _).
  exists w'. split; [exact Hrun | exact Hfiles].
Defined.

(** ** The monad and the log *)

Lemma run_eq {A} (x : result A * world) (r : result A) :
  x.1 = r → x = (r, x.2).
Proof. intros <-. by destruct x. Qed.

Lemma add_events_nil (w : world) : add_events [] w = w.
Proof. destruct w. unfold add_events; simpl. by rewrite app_nil_r. Qed.

Lemma add_events_app (es es' : list event) (w : world) :
  add_events es' (add_events es w) = add_events (es ++ es') w.
Proof. unfold add_events; simpl. by rewrite app_assoc. Qed.

Lemma add_event_events (e : event) (w : world) :
  add_event e w = add_events [e] w.
Proof. reflexivity. Qed.

Lemma gets_app (t t' : list event) : gets (t ++ t') = gets t ++ gets t'.
Proof. apply omap_app. Qed.

Lemma outcomes_app (t t' : list event) :
  outcomes (t ++ t') = outcomes t ++ outcomes t'.
Proof. apply omap_app. Qed.

Lemma sent_headers_app (t t' : list event) :
  sent_headers (t ++ t') = sent_headers t ++ sent_headers t'.
Proof. apply omap_app. Qed.

Lemma moves_app (t t' : list event) : moves (t ++ t') = moves t ++ moves t'.
Proof. apply omap_app. Qed.

Lemma plain_gets (es : list event) : forallb plain es = true → gets es = [].
Proof.
  induction es as [|e es IH]; simpl; [done |].
  intros [He Hes]%andb_true_iff. unfold gets in *; simpl.
  rewrite (IH Hes). by destruct e.
Qed.

Lemma plain_outcomes (es : list event) :
  forallb plain es = true → outcomes es = [].
Proof.
  induction es as [|e es IH]; simpl; [done |].
  intros [He Hes]%andb_true_iff. unfold outcomes in *; simpl.
  rewrite (IH Hes). by destruct e as [| | | | | | | | | |[]].
Qed.

Lemma plain_moves (es : list event) : forallb plain es = true → moves es = [].
Proof.
  induction es as [|e es IH]; simpl; [done |].
  intros [He Hes]%andb_true_iff. unfold moves in *; simpl.
  rewrite (IH Hes). by destruct e.
Qed.

Lemma plain_sent_headers (es : list event) :
  forallb plain es = true → sent_headers es = [].
Proof.
  induction es as [|e es IH]; simpl; [done |].
  intros [He Hes]%andb_true_iff. unfold sent_headers in *; simpl.
  rewrite (IH Hes). by destruct e.
Qed.

Section Properties.

Variable lh_parse : bytes → option (list element).
Variable unquote : pystr → pystr.
Variable str_lower : pystr → pystr.
Variable server : list event → pystr → reply.

(** [str.lower] of the empty string is the empty string. *)
Hypothesis str_lower_empty : str_lower [] = [].

(** [str.lower] keeps a string that is lower case already. *)
Hypothesis str_lower_mid : str_lower (str "mid") = str "mid".

(** ** The download *)

Lemma alter_lookup_insert (g : bytes → bytes) (p : pystr) (c : bytes)
    (m : gmap pystr bytes) :
  m !! p = Some c → alter g p m = <[p := g c]> m.
Proof.
  intros Hc. apply map_eq. intros q.
  rewrite lookup_alter, lookup_insert.
  destruct (decide (p = q)) as [<- |]; simpl; [by rewrite Hc | done].
Qed.

Lemma write_chunks_events (file_name : pystr) (total dl : Z)
    (chunks : list bytes) (w : world) :
  ∃ es, trace (write_chunks file_name total dl chunks w).2 = trace w ++ es ∧
        dirs (write_chunks file_name total dl chunks w).2 = dirs w ∧
        forallb plain es = true.
Proof.
  revert dl w. induction chunks as [|data rest IH]; intros dl w; simpl.
  - exists []. by rewrite app_nil_r.
  - unfold bind, write, log, raise, print; simpl.
    destruct (total =? 0); simpl.
    + by exists [EvWrite file_name data].
    + unfold log; simpl.
      match goal with |- context [write_chunks _ _ ?d _ ?w1] =>
        destruct (IH d w1) as (es & Ht & Hd & Hp) end.
      exists (EvWrite file_name data ::
              EvPrint (MsgProgress (dl + Z.of_nat (length data)) total) :: es).
      rewrite Ht, Hd; simpl. split; [| done].
      by rewrite <- !app_assoc.
Qed.

Lemma write_chunks_ok (file_name : pystr) (total dl : Z)
    (chunks : list bytes) (c : bytes) (w : world) :
  total ≠ 0 ∨ chunks = [] →
  files w !! file_name = Some c →
  ∃ w', write_chunks file_name total dl chunks w = (Ret (), w') ∧
        files w' = <[file_name := c ++ concat chunks]> (files w).
Proof.
  revert dl c w. induction chunks as [|data rest IH]; intros dl c w Hok Hc; simpl.
  - exists w. split; [done |]. by rewrite app_nil_r, insert_id.
  - destruct Hok as [Hn | ?]; [| done].
    unfold bind, write, log, print; simpl.
    destruct (Z.eqb_spec total 0) as [? | _]; [done |]. unfold log; simpl.
    match goal with |- context [write_chunks _ _ ?d _ ?w1] =>
      destruct (IH d (c ++ data) w1 (or_introl Hn)) as (w' & Hrun & Hf) end.
    { simpl. rewrite (alter_lookup_insert _ _ c) by done.
      apply lookup_insert_eq. }
    exists w'. split; [done |]. rewrite Hf; simpl.
    rewrite (alter_lookup_insert _ _ c) by done.
    by rewrite insert_insert_eq, <- app_assoc.
Qed.

Lemma download_events (url file_name : pystr) (w : world) :
  let w' := (download server url file_name w).2 in
  ∃ es, trace w' = trace w ++ es ∧
        dirs w' = dirs w ∧
        outcomes es = [] ∧ moves es = [] ∧
        gets es = (if bool_decide (file_name ∈ dirs w) then [] else [url]) ∧
        sent_headers es =
          (if bool_decide (file_name ∈ dirs w) then [] else [headers]).
Proof.
  unfold download, open_write, print, requests_get, bind, log; simpl.
  destruct (bool_decide (file_name ∈ dirs w)); simpl.
  { by exists [EvOpenWrite file_name]. }
  destruct (server _ url) as [|len chunks]; simpl.
  { exists [EvOpenWrite file_name; EvPrint (MsgDownloading file_name);
            EvGet url headers].
    by rewrite <- !app_assoc. }
  destruct len as [| |n]; simpl.
  - unfold write, bind, log; simpl.
    exists [EvOpenWrite file_name; EvPrint (MsgDownloading file_name);
            EvGet url headers; EvWrite file_name (concat chunks)].
    by rewrite <- !app_assoc.
  - exists [EvOpenWrite file_name; EvPrint (MsgDownloading file_name);
            EvGet url headers].
    by rewrite <- !app_assoc.
  - match goal with |- context [write_chunks _ _ ?d _ ?w1] =>
      destruct (write_chunks_events file_name n d chunks w1)
        as (es & Ht & Hd & Hp) end.
    exists ([EvOpenWrite file_name; EvPrint (MsgDownloading file_name);
             EvGet url headers] ++ es).
    rewrite Ht, Hd; simpl. split; [by rewrite <- !app_assoc |].
    split; [done |]. unfold outcomes, moves, gets, sent_headers; simpl.
    fold (outcomes es) (moves es) (gets es) (sent_headers es).
    by rewrite plain_outcomes, plain_moves, plain_gets, plain_sent_headers.
Qed.

Lemma download_ok (url file_name : pystr) (len : length_header)
    (chunks : list bytes) (w : world) :
  file_name ∉ dirs w →
  (∀ t, server t url = Response len chunks) →
  length_ok len chunks = true →
  ∃ w', download server url file_name w = (Ret (), w') ∧
        files w' = <[file_name := concat chunks]> (files w).
Proof.
  intros Hdir Hsrv Hlen.
  unfold download, open_write, print, requests_get, bind, log; simpl.
  rewrite bool_decide_eq_false_2 by done. rewrite Hsrv; simpl.
  destruct len as [| |n]; simpl in *; [| done |].
  - unfold write, bind, log; simpl. eexists. split; [done |]. simpl.
    rewrite (alter_lookup_insert _ _ []) by apply lookup_insert_eq.
    by rewrite insert_insert_eq.
  - match goal with |- context [write_chunks _ _ ?d _ ?w1] =>
      destruct (write_chunks_ok file_name n d chunks [] w1)
        as (w' & Hrun & Hf) end.
    + apply orb_true_iff in Hlen as [Hn | Hc].
      * left. intros ->. done.
      * right. by apply bool_decide_eq_true in Hc.
    + apply lookup_insert_eq.
    + exists w'. split; [done |]. rewrite Hf; simpl.
      by rewrite insert_insert_eq.
Qed.

(** ** The fetch *)

Lemma is_html_file_events (dst : pystr) (w : world) :
  ∃ es, is_html_file dst w =
          ((is_html_file dst w).1, add_events es w) ∧
        forallb plain es = true.
Proof.
  unfold is_html_file, read_head, bind, log, print; simpl.
  destruct (files w !! dst) as [c|]; simpl.
  - destruct (is_doctype (take 10 c)); simpl.
    + by exists [EvRead dst 10].
    + exists [EvRead dst 10; EvPrint (MsgNotDoctype (take 10 c))].
      unfold log, add_events, add_event; simpl. by rewrite <- app_assoc.
  - by exists [EvRead dst 10].
Qed.

Ltac log_close :=
  eexists; split; [rewrite <- ?app_assoc; reflexivity |];
  split; [done |]; split; [by left | intros; by simplify_eq].

Ltac munfold_in H :=
  repeat (progress (unfold bind, log, print, ret, raise, when, remove, move,
                      isfile, isdir, makedirs, read_head, open_write, write in H;
                    simpl in H)).

Ltac log_step :=
  unfold ret, raise in *; repeat case_match; simplify_eq/=; log_close.

Lemma download_branch_events (src dst : pystr) (w : world)
    (r : result fetch_outcome) (w' : world) :
  download_branch server src dst w = (r, w') →
  ∃ es, trace w' = trace w ++ es ∧ dirs w' = dirs w ∧
        gets es = (if bool_decide (dst ∈ dirs w) then [] else [src]) ∧
        sent_headers es =
          (if bool_decide (dst ∈ dirs w) then [] else [headers]) ∧
        (∀ o, r = Ret o → outcomes es = [o]).
Proof.
  unfold download_branch, print. unfold bind at 1, log at 1.
  unfold bind at 1. intros Hrun.
  destruct (download_events src dst
              (add_event (EvPrint (MsgDownloadingSrc src)) w))
    as (es & Ht & Hd & Ho & Hm & Hg & Hh).
  destruct (download server src dst _) as [[[]|e] w1]; simpl in *.
  - unfold bind at 1 in Hrun.
    destruct (is_html_file_events dst w1) as (es1 & Hrun1 & Hp1).
    rewrite Hrun1 in Hrun.
    pose proof (plain_gets _ Hp1) as Hg1.
    pose proof (plain_outcomes _ Hp1) as Ho1.
    pose proof (plain_sent_headers _ Hp1) as Hh1.
    destruct (is_html_file dst w1).1 as [[]|e1]; simpl in *;
      munfold_in Hrun;
      repeat case_match; simplify_eq/=; rewrite Ht;
      (eexists; split; [rewrite <- ?app_assoc; reflexivity |]);
      (split; [done |]);
      rewrite ?gets_app, ?sent_headers_app, ?outcomes_app, Hg1, Ho1, Hh1, Ho,
        Hg, Hh;
      simpl; rewrite ?app_nil_r; (split; [done |]); (split; [done |]);
      intros; by simplify_eq.
  - simplify_eq. rewrite Ht.
    eexists; split; [rewrite <- ?app_assoc; reflexivity |].
    split; [done |]. simpl. rewrite Hg, Hh.
    split; [done |]. split; [done |]. intros; by simplify_eq.
Qed.

Lemma fetch_log_of_branch (src dst : pystr) (w : world)
    (r : result fetch_outcome) (es : list event) :
  gets es = (if bool_decide (dst ∈ dirs w) then [] else [src]) →
  sent_headers es = (if bool_decide (dst ∈ dirs w) then [] else [headers]) →
  (∀ o, r = Ret o → outcomes es = [o]) →
  fetch_log src r es.
Proof.
  intros Hg Hh Ho. split; [| done]. rewrite Hg, Hh.
  destruct (bool_decide _); [by left | by right].
Qed.

Lemma attempt_events (src dst : pystr) (enc : option pystr) (w : world)
    (r : result fetch_outcome) (w' : world) :
  attempt server src dst enc w = (r, w') →
  ∃ es, trace w' = trace w ++ es ∧ dirs w' = dirs w ∧ fetch_log src r es.
Proof.
  unfold attempt. intros Hrun.
  unfold bind at 1 in Hrun.
  destruct (truthy enc) eqn:Henc.
  - unfold isfile in Hrun. unfold bind at 1, log at 1 in Hrun. simpl in Hrun.
    destruct (bool_decide (is_Some (files w !! default [] enc))) eqn:Hleft.
    + munfold_in Hrun. log_step.
    + apply download_branch_events in Hrun as (es & Ht & Hd & Hg & Hh & Ho).
      simpl in *. exists (EvIsFile (default [] enc) :: es).
      split; [by rewrite Ht, <- app_assoc |]. split; [done |].
      pose proof (fetch_log_of_branch src dst _ r es Hg Hh Ho) as [? ?].
      unfold fetch_log, gets, sent_headers, outcomes; simpl.
      by split.
  - unfold ret at 1 in Hrun.
    apply download_branch_events in Hrun as (es & Ht & Hd & Hg & Hh & Ho).
    exists es. split; [done |]. split; [done |].
    by apply (fetch_log_of_branch src dst w).
Qed.

Lemma fetch_events (src dst : pystr) (enc : option pystr) (w : world)
    (r : result fetch_outcome) (w' : world) :
  fetch server src dst enc w = (r, w') →
  ∃ es, trace w' = trace w ++ es ∧ dirs w' = dirs w ∧ fetch_log src r es.
Proof.
  unfold fetch, isfile. unfold bind at 1. unfold bind at 1, log at 1. simpl.
  intros Hrun.
  destruct (bool_decide (is_Some (files w !! dst))) eqn:Hdst.
  - rewrite bool_decide_eq_true in Hdst. destruct Hdst as [c Hc].
    unfold bind at 1 in Hrun. unfold bind at 1 in Hrun.
    rewrite (is_html_file_run dst c) in Hrun by done.
    destruct (is_doctype (take 10 c)); simpl in Hrun.
    + unfold remove in Hrun. unfold bind at 1 2, log at 1 in Hrun.
      simpl in Hrun. rewrite Hc in Hrun. simpl in Hrun.
      apply attempt_events in Hrun as (es & Ht & Hd & Hg & Ho).
      simpl in *. exists ([EvIsFile dst; EvRead dst 10; EvRemove dst] ++ es).
      split; [by rewrite Ht, <- !app_assoc |]. split; [done |].
      unfold fetch_log, gets, sent_headers, outcomes; simpl.
      by split.
    + munfold_in Hrun. log_step.
  - simpl in Hrun. apply attempt_events in Hrun as (es & Ht & Hd & Hg & Ho).
    simpl in *. exists (EvIsFile dst :: es).
    split; [by rewrite Ht, <- !app_assoc |]. split; [done |].
    unfold fetch_log, gets, sent_headers, outcomes; simpl.
    by split.
Qed.

Lemma fetch_skips_existing (src dst : pystr) (enc : option pystr)
    (c : bytes) (w : world) :
  files w !! dst = Some c →
  is_doctype (take 10 c) = false →
  fetch server src dst enc w =
    (Ret SkippedExisting,
     add_events [EvIsFile dst; EvRead dst 10;
                 EvPrint (MsgNotDoctype (take 10 c));
                 EvPrint (MsgSkippingExisting dst)] w).
Proof.
  intros Hc Hsniff. unfold fetch, isfile.
  unfold bind at 1. unfold bind at 1, log at 1. simpl.
  rewrite bool_decide_eq_true_2 by (by eexists).
  unfold bind at 1. unfold bind at 1.
  rewrite (is_html_file_run dst c) by done. rewrite Hsniff. simpl.
  unfold print, bind, log, ret, add_events, add_event; simpl.
  by rewrite <- !app_assoc.
Qed.

Lemma fetch_removes_markup (src dst : pystr) (enc : option pystr)
    (c : bytes) (w : world) :
  files w !! dst = Some c →
  is_doctype (take 10 c) = true →
  fetch server src dst enc w =
    attempt server src dst enc
      (set_files (delete dst (files w))
         (add_events [EvIsFile dst; EvRead dst 10; EvRemove dst] w)).
Proof.
  intros Hc Hsniff. unfold fetch, isfile.
  unfold bind at 1. unfold bind at 1, log at 1. simpl.
  rewrite bool_decide_eq_true_2 by (by eexists).
  unfold bind at 1. unfold bind at 1.
  rewrite (is_html_file_run dst c) by done. rewrite Hsniff. simpl.
  unfold remove. unfold bind at 1 2, log at 1. simpl. rewrite Hc. simpl.
  unfold add_events, add_event, set_files; simpl.
  by rewrite <- !app_assoc.
Qed.

Lemma fetch_absent (src dst : pystr) (enc : option pystr) (w : world) :
  files w !! dst = None →
  fetch server src dst enc w =
    attempt server src dst enc (add_events [EvIsFile dst] w).
Proof.
  intros Hc. unfold fetch, isfile.
  unfold bind at 1. unfold bind at 1, log at 1. simpl.
  rewrite bool_decide_eq_false_2; [done |]. rewrite Hc. by intros [? ?].
Qed.

Lemma attempt_reuses_leftover (src dst e : pystr) (c : bytes) (w : world) :
  dst ∉ dirs w →
  e ≠ [] →
  files w !! e = Some c →
  attempt server src dst (Some e) w =
    (Ret ReusedLeftover,
     set_files (<[dst := c]> (delete e (files w)))
       (add_events [EvIsFile e; EvMove e dst; EvPrint (MsgMv e dst)] w)).
Proof.
  intros Hdir He Hc. unfold attempt.
  assert (truthy (Some e) = true) as -> by (by destruct e).
  unfold isfile. unfold bind at 1. unfold bind at 1, log at 1. simpl.
  rewrite bool_decide_eq_true_2 by (by eexists).
  unfold move, print. unfold bind at 1. unfold bind at 1. unfold bind at 1.
  unfold log at 1. simpl. rewrite Hc.
  rewrite bool_decide_eq_false_2 by done.
  unfold bind, log, ret, set_files, add_events, add_event; simpl.
  by rewrite <- !app_assoc.
Qed.

Lemma attempt_downloads (src dst : pystr) (enc : option pystr) (w : world) :
  no_leftover enc w →
  attempt server src dst enc w =
    download_branch server src dst
      (add_events (if truthy enc then [EvIsFile (default [] enc)] else []) w).
Proof.
  intros Hno. unfold attempt. unfold bind at 1.
  destruct (truthy enc) eqn:Henc.
  - destruct Hno as [? | Hnone]; [congruence |].
    unfold isfile. unfold bind at 1, log at 1. simpl.
    rewrite bool_decide_eq_false_2; [done |]. rewrite Hnone. by intros [? ?].
  - unfold ret. by rewrite add_events_nil.
Qed.

Lemma download_branch_result (src dst : pystr) (len : length_header)
    (chunks : list bytes) (w : world) :
  dst ∉ dirs w →
  (∀ t, server t src = Response len chunks) →
  length_ok len chunks = true →
  ∃ w',
    download_branch server src dst w =
      (Ret (if is_doctype (take 10 (concat chunks))
            then FailedHtmlAgain else Downloaded), w') ∧
    files w' =
      (if is_doctype (take 10 (concat chunks))
       then delete dst (files w)
       else <[dst := concat chunks]> (files w)).
Proof.
  intros Hdir Hsrv Hlen. unfold download_branch, print.
  unfold bind at 1, log at 1. unfold bind at 1.
  destruct (download_ok src dst len chunks
              (add_event (EvPrint (MsgDownloadingSrc src)) w))
    as (w1 & Hrun & Hf); [done .. |].
  rewrite Hrun. unfold bind at 1.
  rewrite (is_html_file_run dst (concat chunks))
    by (rewrite Hf; apply lookup_insert_eq).
  destruct (is_doctype (take 10 (concat chunks))); simpl.
  - unfold remove, bind, log; simpl. rewrite Hf; simpl.
    rewrite lookup_insert_eq. eexists. split; [done |]. simpl.
    by rewrite delete_insert_eq.
  - unfold bind, log; simpl. eexists. split; [done |]. by simpl.
Qed.

(** C5: the decision order of a fetch.  (1) An existing destination
    that does not sniff as markup is kept: outcome skipped-existing, no
    request.  (2) An existing destination that sniffs as markup is
    deleted and the fetch goes on as a fresh attempt; an absent
    destination goes on likewise.  (3) In a fresh attempt a leftover
    under the encoded name is moved to the destination, with no
    request.  (4) Otherwise exactly one GET is sent, to [src], with the
    module's headers.  (5) When that download completes, a body that
    sniffs as markup is deleted again and the outcome is
    failed-html-again, any other body is kept and the outcome is
    downloaded.  (6) No fetch sends more than one request. *)
Theorem fetch_decision_order (src dst : pystr) (enc : option pystr)
    (w : world) :
  (∀ c, files w !! dst = Some c → is_doctype (take 10 c) = false →
     (fetch server src dst enc w).1 = Ret SkippedExisting ∧
     files (fetch server src dst enc w).2 = files w ∧
     gets (trace (fetch server src dst enc w).2) = gets (trace w)) ∧
  (∀ c, files w !! dst = Some c → is_doctype (take 10 c) = true →
     ∃ w1, files w1 = delete dst (files w) ∧ dirs w1 = dirs w ∧
           gets (trace w1) = gets (trace w) ∧
           fetch server src dst enc w = attempt server src dst enc w1) ∧
  (files w !! dst = None →
     ∃ w1, files w1 = files w ∧ dirs w1 = dirs w ∧
           gets (trace w1) = gets (trace w) ∧
           fetch server src dst enc w = attempt server src dst enc w1) ∧
  (∀ w1 e c, dst ∉ dirs w1 → enc = Some e → e ≠ [] →
     files w1 !! e = Some c →
     (attempt server src dst enc w1).1 = Ret ReusedLeftover ∧
     files (attempt server src dst enc w1).2 =
       <[dst := c]> (delete e (files w1)) ∧
     gets (trace (attempt server src dst enc w1).2) = gets (trace w1)) ∧
  (∀ w1, dst ∉ dirs w1 → no_leftover enc w1 →
     gets (trace (attempt server src dst enc w1).2) =
       gets (trace w1) ++ [src] ∧
     sent_headers (trace (attempt server src dst enc w1).2) =
       sent_headers (trace w1) ++ [headers]) ∧
  (∀ w1 len chunks, dst ∉ dirs w1 → no_leftover enc w1 →
     (∀ t, server t src = Response len chunks) →
     length_ok len chunks = true →
     (attempt server src dst enc w1).1 =
       Ret (if is_doctype (take 10 (concat chunks))
            then FailedHtmlAgain else Downloaded) ∧
     files (attempt server src dst enc w1).2 =
       (if is_doctype (take 10 (concat chunks))
        then delete dst (files w1)
        else <[dst := concat chunks]> (files w1))) ∧
  (length (gets (trace (fetch server src dst enc w).2)) ≤
     length (gets (trace w)) + 1)%nat.
Proof.
  split; [| split; [| split; [| split; [| split; [| split]]]]].
  - intros c Hc Hsniff.
    rewrite (fetch_skips_existing src dst enc c) by done. simpl.
    by rewrite gets_app, app_nil_r.
  - intros c Hc Hsniff.
    exists (set_files (delete dst (files w))
              (add_events [EvIsFile dst; EvRead dst 10; EvRemove dst] w)).
    simpl. rewrite gets_app, app_nil_r.
    split; [done |]. split; [done |]. split; [done |].
    by apply (fetch_removes_markup src dst enc c).
  - intros Hc. exists (add_events [EvIsFile dst] w).
    simpl. rewrite gets_app, app_nil_r.
    split; [done |]. split; [done |]. split; [done |].
    by apply fetch_absent.
  - intros w1 e c Hdir -> He Hc.
    rewrite (attempt_reuses_leftover src dst e c) by done. simpl.
    by rewrite gets_app, app_nil_r.
  - intros w1 Hdir Hno. rewrite attempt_downloads by done.
    destruct (download_branch server src dst _) as [r w2] eqn:Hrun.
    apply download_branch_events in Hrun as (es & Ht & _ & Hg & Hh & _).
    simpl in *. rewrite Ht, !gets_app, !sent_headers_app, Hg, Hh.
    rewrite bool_decide_eq_false_2 by done.
    rewrite <- !app_assoc. by destruct (truthy enc).
  - intros w1 len chunks Hdir Hno Hsrv Hlen.
    rewrite attempt_downloads by done.
    destruct (download_branch_result src dst len chunks
                (add_events (if truthy enc then [EvIsFile (default [] enc)]
                             else []) w1)) as (w2 & Hrun & Hf); [done .. |].
    by rewrite Hrun.
  - destruct (fetch server src dst enc w) as [r w'] eqn:Hrun.
    apply fetch_events in Hrun as (es & Ht & _ & [[Hg | [Hg _]] _]);
      simpl; rewrite Ht, gets_app, length_app, Hg; simpl; lia.
Qed.

(** ** The loop over the elements *)

Lemma last_found_cons_src (e : element) (elts : list element)
    (src : pystr) (found : option pystr) :
  attrib e !! str "src" = Some src →
  last_found (e :: elts) found = last_found elts (Some src).
Proof.
  intros He. unfold last_found, refs; simpl. rewrite He, last_cons.
  by destruct (last _).
Qed.

Lemma last_found_cons_none (e : element) (elts : list element)
    (found : option pystr) :
  attrib e !! str "src" = None →
  last_found (e :: elts) found = last_found elts found.
Proof. intros He. unfold last_found, refs; simpl. by rewrite He. Qed.

Lemma scan_app (dot_exts : list pystr) (folder binary_path : option pystr)
    (l1 l2 : list element) (st : scan_state) (w : world) :
  scan unquote str_lower server dot_exts folder binary_path (l1 ++ l2) st w =
  bind (scan unquote str_lower server dot_exts folder binary_path l1 st)
       (scan unquote str_lower server dot_exts folder binary_path l2) w.
Proof.
  revert st w. induction l1 as [|e l1 IH]; intros st w; simpl; [done |].
  unfold bind.
  destruct (scan_element _ _ _ _ _ _ _ _ w) as [[st1|x] w1]; [| done].
  rewrite IH. done.
Qed.

Lemma scan_passes_over (dot_exts : list pystr)
    (folder binary_path : option pystr) (elts : list element)
    (st : scan_state) (w : world) :
  Forall (passed_over str_lower dot_exts) elts →
  scan unquote str_lower server dot_exts folder binary_path elts st w =
    (Ret (ScanState (got st) (last_found elts (found_url st))),
     add_events (skip_notes elts) w).
Proof.
  intros Hall. revert st w.
  induction Hall as [|e elts He _ IH]; intros st w; simpl.
  - rewrite add_events_nil. by destruct st.
  - unfold bind, scan_element.
    destruct (attrib e !! str "src") as [src|] eqn:Hsrc.
    + rewrite (He src Hsrc); simpl. unfold ret. rewrite IH; simpl.
      by rewrite (last_found_cons_src e elts src).
    + rewrite (last_found_cons_none e elts) by done.
      destruct (bool_decide (tag e = str "source:")); simpl;
        unfold bind, print, log, ret; rewrite IH; simpl.
      * by rewrite add_event_events, add_events_app.
      * done.
Qed.

(** ** Documents without a usable reference *)

Lemma prepare_folders_events (folder binary_path html_folder : option pystr)
    (w : world) :
  ∃ es,
    trace (prepare_folders folder binary_path html_folder w).2 = trace w ++ es ∧
    files (prepare_folders folder binary_path html_folder w).2 = files w ∧
    forallb plain es = true.
Proof.
  unfold prepare_folders.
  destruct binary_path as [bp|], folder as [f|], html_folder as [h|];
    repeat (progress (unfold bind, log, print, ret, raise, when, isdir,
                        makedirs; simpl));
    repeat case_match; simplify_eq/=;
    (eexists; split; [rewrite <- ?app_assoc; try reflexivity;
                      symmetry; apply app_nil_r |]; done).
Qed.

Lemma refs_nil_no_src (elts : list element) :
  refs elts = [] → Forall (λ e, attrib e !! str "src" = None) elts.
Proof.
  induction elts as [|e elts IH]; [by constructor |].
  unfold refs; simpl. destruct (attrib e !! str "src") eqn:He; [done |].
  intros Hr. constructor; [done | by apply IH].
Qed.

Lemma skipped_run (html_path : pystr) (c : bytes) (elts : list element)
    (extensions : list pystr) (folder binary_path html_folder : option pystr)
    (w : world) :
  files w !! html_path = Some c →
  lh_parse c = Some elts →
  Forall (passed_over str_lower (dot_exts_of str_lower extensions)) elts →
  redownload lh_parse unquote str_lower server html_path extensions
    folder binary_path html_folder w =
  match prepare_folders folder binary_path html_folder w with
  | (Ret fs, w1) =>
      (Ret (),
       add_events
         (EvParse html_path :: skip_notes elts ++
          if truthy (last_found elts None) then []
          else [EvPrint (MsgNoSource html_path)]) w1)
  | (Raise x, w1) => (Raise x, w1)
  end.
Proof.
  intros Hc Hparse Hall. unfold redownload. unfold bind at 1.
  destruct (prepare_folders_events folder binary_path html_folder w)
    as (es & _ & Hf & _).
  destruct (prepare_folders folder binary_path html_folder w)
    as [[fs|x] w1]; [| done]. simpl in Hf.
  unfold bind at 1. unfold parse. unfold bind at 1, log at 1. simpl.
  rewrite Hf, Hc, Hparse. unfold bind at 1.
  rewrite scan_passes_over by done. simpl.
  unfold finish; simpl. unfold when at 1. simpl.
  unfold bind at 1, ret at 1.
  rewrite add_event_events, add_events_app.
  destruct (truthy (last_found elts None)); simpl.
  - unfold ret. by rewrite app_nil_r.
  - unfold print, log. by rewrite add_event_events, add_events_app.
Qed.

Lemma skip_notes_plain (elts : list element) :
  forallb plain (skip_notes elts) = true.
Proof.
  induction elts as [|e elts IH]; [done |]. unfold skip_notes; simpl.
  rewrite forallb_app. fold (skip_notes elts). rewrite IH, andb_true_r.
  destruct (attrib e !! str "src"); [done |].
  by destruct (bool_decide _).
Qed.

Lemma skipped_run_quiet (html_path : pystr) (c : bytes) (elts : list element)
    (extensions : list pystr) (folder binary_path html_folder : option pystr)
    (w : world) :
  files w !! html_path = Some c →
  lh_parse c = Some elts →
  Forall (passed_over str_lower (dot_exts_of str_lower extensions)) elts →
  files (redownload lh_parse unquote str_lower server html_path extensions
           folder binary_path html_folder w).2 = files w ∧
  moves (trace (redownload lh_parse unquote str_lower server html_path
                  extensions folder binary_path html_folder w).2) =
    moves (trace w).
Proof.
  intros Hc Hparse Hall.
  rewrite (skipped_run html_path c elts) by done.
  destruct (prepare_folders_events folder binary_path html_folder w)
    as (es & Ht & Hf & Hp).
  destruct (prepare_folders folder binary_path html_folder w) as [[fs|x] w1];
    simpl in *; rewrite Ht, ?moves_app, (plain_moves es Hp).
  - split; [done |]. rewrite app_nil_r.
    change (EvParse html_path :: ?l) with ([EvParse html_path] ++ l).
    rewrite !moves_app, (plain_moves _ (skip_notes_plain elts)).
    destruct (truthy _); simpl; by rewrite app_nil_r.
  - by rewrite app_nil_r.
Qed.

(** C9: a document none of whose elements carries a src attribute
    leaves the loop with [got] unset and [found_url] still false;
    [redownload] then moves no file (the file system is as before and
    the log has no new move) and, once the folders are prepared, ends
    with the warning that no source was found. *)
Theorem no_reference_nothing_moved (html_path : pystr) (c : bytes)
    (elts : list element) (extensions : list pystr)
    (folder binary_path html_folder : option pystr) (w : world) :
  files w !! html_path = Some c →
  lh_parse c = Some elts →
  refs elts = [] →
  (∀ w0, scan unquote str_lower server (dot_exts_of str_lower extensions)
           folder binary_path elts (ScanState None None) w0 =
         (Ret (ScanState None None), add_events (skip_notes elts) w0)) ∧
  files (redownload lh_parse unquote str_lower server html_path extensions
           folder binary_path html_folder w).2 = files w ∧
  moves (trace (redownload lh_parse unquote str_lower server html_path
                  extensions folder binary_path html_folder w).2) =
    moves (trace w) ∧
  (∀ fs w1, prepare_folders folder binary_path html_folder w = (Ret fs, w1) →
     redownload lh_parse unquote str_lower server html_path extensions
       folder binary_path html_folder w =
     (Ret (),
      add_events (EvParse html_path :: skip_notes elts ++
                  [EvPrint (MsgNoSource html_path)]) w1)).
Proof.
  intros Hc Hparse Hrefs.
  assert (Hall : Forall (passed_over str_lower
                           (dot_exts_of str_lower extensions)) elts).
  { eapply Forall_impl; [by apply refs_nil_no_src |].
    intros e He src Hsrc. congruence. }
  assert (Hlast : last_found elts None = None).
  { unfold last_found. by rewrite Hrefs. }
  split; [| split; [| split]].
  - intros w0. rewrite scan_passes_over by done. simpl. by rewrite Hlast.
  - by apply (skipped_run_quiet html_path c elts).
  - by apply (skipped_run_quiet html_path c elts).
  - intros fs w1 Hprep. rewrite (skipped_run html_path c elts) by done.
    by rewrite Hprep, Hlast.
Qed.

Lemma wanted_empty (extensions : list pystr) :
  wanted str_lower (dot_exts_of str_lower extensions) [] = false.
Proof.
  unfold wanted. apply bool_decide_eq_false. simpl.
  rewrite str_lower_empty. unfold dot_exts_of.
  intros (ext & Hext & _)%list_elem_of_fmap. done.
Qed.

(** C10: a document whose references are all the empty string is
    handled like one without references: each empty reference is
    passed over, [found_url] ends as the empty string, which counts as
    false, and [redownload] returns normally after printing the warning
    that no source was found. *)
Theorem empty_reference_reported_as_none (html_path : pystr) (c : bytes)
    (elts : list element) (extensions : list pystr)
    (folder binary_path html_folder : option pystr) (w : world) :
  files w !! html_path = Some c →
  lh_parse c = Some elts →
  refs elts ≠ [] →
  Forall (λ src, src = []) (refs elts) →
  (∀ w0, scan unquote str_lower server (dot_exts_of str_lower extensions)
           folder binary_path elts (ScanState None None) w0 =
         (Ret (ScanState None (Some [])), add_events (skip_notes elts) w0)) ∧
  (∀ fs w1, prepare_folders folder binary_path html_folder w = (Ret fs, w1) →
     redownload lh_parse unquote str_lower server html_path extensions
       folder binary_path html_folder w =
     (Ret (),
      add_events (EvParse html_path :: skip_notes elts ++
                  [EvPrint (MsgNoSource html_path)]) w1)).
Proof.
  intros Hc Hparse Hne Hempty.
  assert (Hall : Forall (passed_over str_lower
                           (dot_exts_of str_lower extensions)) elts).
  { apply Forall_forall. intros e He src Hsrc.
    assert (src = []) as ->; [| apply wanted_empty].
    rewrite Forall_forall in Hempty. apply Hempty.
    unfold refs. apply list_elem_of_omap. by exists e. }
  assert (Hlast : last_found elts None = Some []).
  { unfold last_found. destruct (last (refs elts)) as [src|] eqn:Hl.
    - apply last_Some_elem_of in Hl. rewrite Forall_forall in Hempty.
      by rewrite (Hempty src Hl).
    - by apply last_None in Hl. }
  split.
  - intros w0. rewrite scan_passes_over by done. simpl. by rewrite Hlast.
  - intros fs w1 Hprep. rewrite (skipped_run html_path c elts) by done.
    by rewrite Hprep, Hlast.
Qed.

(** ** Selection of the wanted reference *)

Lemma wanted_same_lower (dot_exts : list pystr) (src src' : pystr) :
  str_lower (splitext src).2 = str_lower (splitext src').2 →
  wanted str_lower dot_exts src = wanted str_lower dot_exts src'.
Proof. unfold wanted. by intros ->. Qed.

Lemma dot_exts_same_lower (extensions extensions' : list pystr) :
  str_lower <$> extensions = str_lower <$> extensions' →
  dot_exts_of str_lower extensions = dot_exts_of str_lower extensions'.
Proof.
  unfold dot_exts_of. intros Heq.
  change (λ ext, extsep :: str_lower ext) with ((extsep ::.) ∘ str_lower).
  by rewrite !list_fmap_compose, Heq.
Qed.

Lemma wanted_mid (src : pystr) (dot_ext : pystr) :
  str_lower (splitext src).2 = dot_ext →
  wanted str_lower (dot_exts_of str_lower [str "mid"]) src =
    bool_decide (dot_ext = str ".mid").
Proof using str_lower_mid.
  intros <-. unfold wanted, dot_exts_of; simpl. rewrite str_lower_mid.
  apply bool_decide_ext. by rewrite list_elem_of_singleton.
Qed.

Lemma scan_selects (dot_exts : list pystr) (folder binary_path : option pystr)
    (pre post : list element) (e : element) (src : pystr) (w : world) :
  Forall (passed_over str_lower dot_exts) pre →
  Forall (passed_over str_lower dot_exts) post →
  attrib e !! str "src" = Some src →
  wanted str_lower dot_exts src = true →
  scan unquote str_lower server dot_exts folder binary_path
    (pre ++ e :: post) (ScanState None None) w =
  match fetch_reference unquote server folder binary_path src
          (ScanState None (last_found pre None))
          (add_events (skip_notes pre) w) with
  | (Ret st1, w1) =>
      (Ret (ScanState (got st1) (last_found post (found_url st1))),
       add_events (skip_notes post) w1)
  | (Raise x, w1) => (Raise x, w1)
  end.
Proof using Type.
  intros Hpre Hpost Hsrc Hwanted.
  rewrite scan_app. unfold bind at 1.
  rewrite scan_passes_over by done. simpl.
  unfold bind at 1. unfold scan_element. rewrite Hsrc, Hwanted. simpl.
  destruct (fetch_reference _ _ _ _ _ _ _) as [[st1|x] w1]; [| done].
  by rewrite scan_passes_over.
Qed.

(** C4: in a document whose references are exactly one with extension
    .mp3, one with .ogg and one with .mid (in any order, compared in
    lower case), and with the target extensions ["mid"], only the .mid
    reference is wanted: the loop passes over every other element
    without touching the world and hands the .mid URL, and nothing
    else, to the fetch.  The test depends on the extension and on the
    target extensions through their lower-case forms only. *)
Theorem scan_selects_mid (elts : list element) (s_mp3 s_ogg s_mid : pystr)
    (folder binary_path : option pystr) (w : world) :
  refs elts ≡ₚ [s_mp3; s_ogg; s_mid] →
  str_lower (splitext s_mp3).2 = str ".mp3" →
  str_lower (splitext s_ogg).2 = str ".ogg" →
  str_lower (splitext s_mid).2 = str ".mid" →
  wanted str_lower (dot_exts_of str_lower [str "mid"]) s_mid = true ∧
  wanted str_lower (dot_exts_of str_lower [str "mid"]) s_mp3 = false ∧
  wanted str_lower (dot_exts_of str_lower [str "mid"]) s_ogg = false ∧
  (∃ pre e post,
     elts = pre ++ e :: post ∧
     attrib e !! str "src" = Some s_mid ∧
     refs pre ++ refs post ≡ₚ [s_mp3; s_ogg] ∧
     scan unquote str_lower server (dot_exts_of str_lower [str "mid"])
       folder binary_path elts (ScanState None None) w =
     match fetch_reference unquote server folder binary_path s_mid
             (ScanState None (last_found pre None))
             (add_events (skip_notes pre) w) with
     | (Ret st1, w1) =>
         (Ret (ScanState (got st1) (last_found post (found_url st1))),
          add_events (skip_notes post) w1)
     | (Raise x, w1) => (Raise x, w1)
     end) ∧
  (∀ dot_exts src src',
     str_lower (splitext src).2 = str_lower (splitext src').2 →
     wanted str_lower dot_exts src = wanted str_lower dot_exts src') ∧
  (∀ extensions extensions',
     str_lower <$> extensions = str_lower <$> extensions' →
     dot_exts_of str_lower extensions = dot_exts_of str_lower extensions').
Proof using str_lower_mid.
  clear str_lower_empty.
  intros Hperm Hmp3 Hogg Hmid.
  pose proof (wanted_mid s_mid _ Hmid) as Wmid.
  pose proof (wanted_mid s_mp3 _ Hmp3) as Wmp3.
  pose proof (wanted_mid s_ogg _ Hogg) as Wogg.
  rewrite bool_decide_eq_true_2 in Wmid by done.
  rewrite bool_decide_eq_false_2 in Wmp3 by done.
  rewrite bool_decide_eq_false_2 in Wogg by done.
  split; [done |]. split; [done |]. split; [done |].
  split; [| split; [apply wanted_same_lower | apply dot_exts_same_lower]].
  assert (Hin : s_mid ∈ refs elts).
  { rewrite Hperm. set_solver. }
  apply list_elem_of_omap in Hin as (e & He & Hsrc).
  apply list_elem_of_split in He as (pre & post & ->).
  exists pre, e, post.
  assert (Hrest : refs pre ++ refs post ≡ₚ [s_mp3; s_ogg]).
  { unfold refs in Hperm. rewrite omap_app in Hperm. simpl in Hperm.
    rewrite Hsrc in Hperm. fold (refs pre) (refs post) in Hperm.
    rewrite <- Permutation_middle in Hperm.
    apply (Permutation_cons_inv (a := s_mid)).
    etrans; [exact Hperm |]. symmetry.
    apply (Permutation_middle [s_mp3; s_ogg] [] s_mid). }
  assert (Hover : ∀ l, refs l ⊆ refs pre ++ refs post →
                       Forall (passed_over str_lower
                                 (dot_exts_of str_lower [str "mid"])) l).
  { intros l Hl. apply Forall_forall. intros x Hx src Hxsrc.
    assert (src ∈ refs pre ++ refs post) as Hs.
    { apply Hl. unfold refs. apply list_elem_of_omap. by exists x. }
    rewrite Hrest in Hs.
    apply elem_of_cons in Hs as [-> | Hs]; [done |].
    apply list_elem_of_singleton in Hs as ->. done. }
  split; [done |]. split; [done |]. split; [done |].
  apply scan_selects; try done.
  - apply Hover. set_solver.
  - apply Hover. set_solver.
Qed.

(** ** When the page is archived *)

Lemma download_branch_outcome (src dst : pystr) (w : world)
    (o : fetch_outcome) (w' : world) :
  download_branch server src dst w = (Ret o, w') →
  o = FailedHtmlAgain ∨ o = Downloaded.
Proof.
  unfold download_branch, print. unfold bind at 1, log at 1.
  unfold bind at 1.
  destruct (download server src dst _) as [[[]|x] w1]; [| done].
  unfold bind at 1.
  destruct (is_html_file dst w1) as [[[]|x] w2]; [| | done];
    intros Hrun; munfold_in Hrun; repeat case_match; simplify_eq; auto.
Qed.

Lemma attempt_reused_truthy (src dst : pystr) (enc : option pystr)
    (w w' : world) :
  attempt server src dst enc w = (Ret ReusedLeftover, w') →
  truthy enc = true.
Proof.
  unfold attempt. unfold bind at 1.
  destruct (truthy enc); [done |]. unfold ret at 1.
  intros [? | ?]%download_branch_outcome; done.
Qed.

Lemma fetch_reused_truthy (src dst : pystr) (enc : option pystr)
    (w w' : world) :
  fetch server src dst enc w = (Ret ReusedLeftover, w') →
  truthy enc = true.
Proof.
  destruct (files w !! dst) as [c|] eqn:Hc.
  - destruct (is_doctype (take 10 c)) eqn:Hsniff.
    + rewrite (fetch_removes_markup src dst enc c) by done.
      apply attempt_reused_truthy.
    + by rewrite (fetch_skips_existing src dst enc c).
  - rewrite fetch_absent by done. apply attempt_reused_truthy.
Qed.

Lemma wanted_nonempty (extensions : list pystr) (src : pystr) :
  wanted str_lower (dot_exts_of str_lower extensions) src = true → src ≠ [].
Proof.
  intros Hw ->. by rewrite wanted_empty in Hw.
Qed.

Lemma got_after_fetch (src dst : pystr) (enc : option pystr)
    (st : scan_state) (o : fetch_outcome) (w w' : world) :
  src ≠ [] →
  fetch server src dst enc w = (Ret o, w') →
  got_tracks st (ScanState (got_after o src enc (got st)) (Some src)) w w'.
Proof.
  intros Hsrc Hrun. exists [o].
  pose proof Hrun as (es & Ht & _ & _ & Ho)%fetch_events.
  split; [by rewrite Ht, outcomes_app, (Ho o) |]. simpl.
  destruct o; simpl; rewrite ?orb_false_r, ?orb_true_r; try done.
  - by apply fetch_reused_truthy in Hrun.
  - by destruct src.
Qed.

Lemma fetch_reference_tracks (folder binary_path : option pystr)
    (src : pystr) (st st' : scan_state) (w w' : world) :
  src ≠ [] →
  fetch_reference unquote server folder binary_path src st w = (Ret st', w') →
  got_tracks st st' w w'.
Proof.
  intros Hsrc. unfold fetch_reference.
  destruct binary_path as [dst|].
  - destruct (truthy (got st)) eqn:Hgot.
    + unfold print, bind, log, ret. intros [= <- <-]. exists []. simpl.
      by rewrite outcomes_app, Hgot.
    + unfold bind at 1.
      destruct (fetch server src dst _ w) as [[o|x] w1] eqn:Hrun; [| done].
      unfold ret. intros [= <- <-]. by apply (got_after_fetch src dst).
  - destruct folder as [f|]; [| done]. unfold bind at 1.
    destruct (fetch server src _ _ w) as [[o|x] w1] eqn:Hrun; [| done].
    unfold ret. intros [= <- <-]. by eapply got_after_fetch.
Qed.

Lemma scan_tracks (extensions : list pystr)
    (folder binary_path : option pystr) (elts : list element)
    (st st' : scan_state) (w w' : world) :
  scan unquote str_lower server (dot_exts_of str_lower extensions)
    folder binary_path elts st w = (Ret st', w') →
  got_tracks st st' w w'.
Proof.
  revert st w. induction elts as [|e elts IH]; intros st w; simpl.
  - unfold ret. intros [= <- <-]. exists []. by rewrite app_nil_r, orb_false_r.
  - unfold bind at 1.
    destruct (scan_element _ _ _ _ _ _ e st w) as [[st1|x] w1] eqn:Hstep;
      [| done].
    intros (os2 & Ho2 & Hg2)%IH.
    assert (got_tracks st st1 w w1) as (os1 & Ho1 & Hg1).
    { unfold scan_element in Hstep.
      destruct (attrib e !! str "src") as [src|].
      - destruct (wanted _ _ src) eqn:Hw; simpl in Hstep.
        + apply wanted_nonempty in Hw.
          by apply (fetch_reference_tracks folder binary_path src).
        + unfold ret in Hstep. simplify_eq. exists []. simpl.
          by rewrite app_nil_r, orb_false_r.
      - exists []. rewrite app_nil_r, orb_false_r.
        destruct (bool_decide _); munfold_in Hstep; simplify_eq; simpl;
          [| done].
        by rewrite outcomes_app, app_nil_r. }
    exists (os1 ++ os2). rewrite Ho2, Ho1, Hg2, Hg1, existsb_app.
    by rewrite <- app_assoc, orb_assoc.
Qed.

Lemma rfind_absent (x : pystr) (c : N) : c ∉ x → rfind x c = -1.
Proof.
  induction x as [|a x IH]; simpl; [done |].
  intros [Hne Hx]%not_elem_of_cons. rewrite IH by done. simpl.
  by rewrite decide_False.
Qed.

Lemma rfind_last (x y : pystr) (c : N) :
  c ∉ y → rfind (x ++ c :: y) c = Z.of_nat (length x).
Proof.
  intros Hy. induction x as [|a x IH]; simpl.
  - rewrite rfind_absent by done. simpl. by rewrite decide_True.
  - rewrite IH. destruct (Z.leb_spec 0 (Z.of_nat (length x))); lia.
Qed.

Lemma drop_past (x y : pystr) (c : N) :
  drop (Z.to_nat (Z.of_nat (length x) + 1)) (x ++ c :: y) = y.
Proof.
  replace (Z.to_nat (Z.of_nat (length x) + 1)) with (S (length x)) by lia.
  induction x as [|a x IH]; simpl; [done | exact IH].
Qed.

Lemma path_basename_join (parent sub : pystr) :
  sep ∉ sub → path_basename (path_join parent sub) = sub.
Proof.
  intros Hsub. unfold path_join, path_basename, slice_from, startswith.
  rewrite bool_decide_eq_false_2.
  2: { intros [k ->]. apply Hsub. simpl. left. }
  destruct (bool_decide (parent = [])) eqn:Hnil; simpl.
  { apply bool_decide_eq_true in Hnil as ->. simpl.
    by rewrite rfind_absent. }
  destruct (bool_decide (last parent = Some sep)) eqn:Hlast.
  - apply bool_decide_eq_true, last_Some in Hlast as [p' ->].
    rewrite <- app_assoc. simpl. rewrite rfind_last by done.
    apply drop_past.
  - rewrite rfind_last by done. apply drop_past.
Qed.

Lemma redownload_entry_stages (parent sub : pystr) (w w0 w1 w2 : world)
    (fs : option pystr * pystr) (elts : list element) (st : scan_state) :
  startswith sub pseudo_protocol = true →
  prepare_folders None None None w = (Ret fs, w0) →
  parse lh_parse (path_join parent sub) w0 = (Ret elts, w1) →
  scan unquote str_lower server (dot_exts_of str_lower [str "mid"])
    fs.1 None elts (ScanState None None) w1 = (Ret st, w2) →
  fs.2 = str "html" ∧
  redownload_entry lh_parse unquote str_lower server parent sub w =
    finish (path_join parent sub) (str "html") st w2.
Proof.
  intros Hmark Hprep Hparse Hscan.
  assert (fs.2 = str "html") as Hh.
  { unfold prepare_folders in Hprep. munfold_in Hprep.
    repeat case_match; by simplify_eq. }
  split; [done |].
  unfold redownload_entry. rewrite Hmark. unfold redownload.
  unfold bind at 1. rewrite Hprep. unfold bind at 1. rewrite Hparse.
  unfold bind at 1. rewrite Hscan. by rewrite Hh.
Qed.

(** C1, as the code has it: for a directory entry under the full marker
    whose page was parsed and whose loop ended in world [w2], the page
    is moved to html/<base name> when one of the fetches ended as
    downloaded or reused-leftover, and is left where it is when none
    did, in particular when every fetch ended as skipped-existing. *)
Theorem archived_when_acquired (parent sub : pystr) (w w0 w1 w2 : world)
    (fs : option pystr * pystr) (elts : list element) (st : scan_state) :
  sep ∉ sub →
  startswith sub pseudo_protocol = true →
  prepare_folders None None None w = (Ret fs, w0) →
  parse lh_parse (path_join parent sub) w0 = (Ret elts, w1) →
  scan unquote str_lower server (dot_exts_of str_lower [str "mid"])
    fs.1 None elts (ScanState None None) w1 = (Ret st, w2) →
  ∃ os,
    outcomes (trace w2) = outcomes (trace w1) ++ os ∧
    (existsb archives os = true →
     ∀ c, files w2 !! path_join parent sub = Some c →
          path_join (str "html") sub ∉ dirs w2 →
          (redownload_entry lh_parse unquote str_lower server parent sub w).1
            = Ret () ∧
          files (redownload_entry lh_parse unquote str_lower server
                   parent sub w).2 =
            <[path_join (str "html") sub := c]>
              (delete (path_join parent sub) (files w2))) ∧
    (existsb archives os = false →
     (redownload_entry lh_parse unquote str_lower server parent sub w).1
       = Ret () ∧
     files (redownload_entry lh_parse unquote str_lower server
              parent sub w).2 = files w2 ∧
     moves (trace (redownload_entry lh_parse unquote str_lower server
                     parent sub w).2) = moves (trace w2)).
Proof.
  intros Hsub Hmark Hprep Hparse Hscan.
  destruct (redownload_entry_stages parent sub w w0 w1 w2 fs elts st)
    as [_ ->]; [done .. |].
  apply scan_tracks in Hscan as (os & Ho & Hg). simpl in Hg.
  exists os. split; [done |]. split.
  - intros Hos c Hc Hdir.
    assert (∃ es,
      finish (path_join parent sub) (str "html") st w2 =
        (Ret (),
         set_files (<[path_join (str "html") sub := c]>
                      (delete (path_join parent sub) (files w2)))
           (add_events es w2))) as [es ->]; [| done].
    unfold finish. rewrite path_basename_join by done. rewrite Hg, Hos.
    simpl. unfold move, print.
    unfold bind at 1. unfold bind at 1. unfold bind at 1, log at 1.
    simpl. rewrite Hc. rewrite bool_decide_eq_false_2 by done.
    unfold log at 1.
    destruct (truthy (found_url st)); simpl; unfold log, ret; simpl.
    + exists [EvMove (path_join parent sub) (path_join (str "html") sub);
              EvPrint (MsgMvHtml (path_join parent sub)
                         (path_join (str "html") sub))].
      unfold set_files, add_events, add_event; simpl.
      by rewrite <- !app_assoc.
    + exists [EvMove (path_join parent sub) (path_join (str "html") sub);
              EvPrint (MsgMvHtml (path_join parent sub)
                         (path_join (str "html") sub));
              EvPrint (MsgNoSource (path_join parent sub))].
      unfold set_files, add_events, add_event; simpl.
      by rewrite <- !app_assoc.
  - intros Hos.
    assert (∃ es,
      finish (path_join parent sub) (str "html") st w2 =
        (Ret (), add_events es w2) ∧ forallb plain es = true)
      as (es & -> & Hp).
    { unfold finish. rewrite Hg, Hos. simpl. unfold bind at 1, ret at 1.
      destruct (truthy (found_url st)); simpl.
      - exists []. by rewrite add_events_nil.
      - by exists [EvPrint (MsgNoSource (path_join parent sub))]. }
    simpl. by rewrite moves_app, (plain_moves es Hp), app_nil_r.
Qed.

(** ** The two folders *)

(** C3, as the code has it: the same path for the destination folder
    and for the archive folder is accepted.  The option check passes,
    the folder is created when it is missing, and [redownload] goes on
    to parse the page and to run the loop with both folders set to that
    path. *)
Theorem same_folder_accepted (html_path p : pystr) (extensions : list pystr)
    (w : world) :
  p ≠ [] →
  files w !! p = None →
  ∃ w',
    prepare_folders (Some p) None (Some p) w = (Ret (Some p, p), w') ∧
    files w' = files w ∧
    p ∈ dirs w' ∧
    redownload lh_parse unquote str_lower server html_path extensions
      (Some p) None (Some p) w =
    bind (parse lh_parse html_path)
      (λ doc,
         bind (scan unquote str_lower server
                 (dot_exts_of str_lower extensions) (Some p) None doc
                 (ScanState None None))
           (finish html_path p)) w'.
Proof using Type.
  clear str_lower_empty str_lower_mid.
  intros Hp Hfile.
  assert (∃ w', prepare_folders (Some p) None (Some p) w =
                  (Ret (Some p, p), w') ∧
                files w' = files w ∧ p ∈ dirs w') as (w' & Hprep & Hf & Hd).
  { unfold prepare_folders; simpl. unfold isdir, makedirs, when.
    unfold bind at 1. unfold bind at 1. unfold bind at 1.
    unfold bind at 1, log at 1. simpl.
    destruct (bool_decide (p ∈ dirs w)) eqn:Hdir; simpl.
    - apply bool_decide_eq_true in Hdir.
      unfold bind, ret; simpl. by eexists.
    - unfold bind at 1. unfold bind at 1, log at 1. simpl.
      rewrite bool_decide_eq_false_2 by done. rewrite Hfile. simpl.
      rewrite Hdir. unfold bind, ret; simpl. eexists.
      split; [done |]. split; [done |]. simpl. set_solver. }
  exists w'. split; [done |]. split; [done |]. split; [done |].
  unfold redownload. unfold bind at 1. by rewrite Hprep.
Qed.

(** ** The user agent *)

(** C2, on the code: the request made by [download] carries the one
    header User-Agent, and its value is [UA], which starts with the
    header's own name and a colon.  That value is not of the documented
    shape; what follows the repeated name is. *)
Theorem user_agent_value_repeats_header_name (url file_name : pystr)
    (w : world) :
  file_name ∉ dirs w →
  sent_headers (trace (download server url file_name w).2) =
    sent_headers (trace w) ++ [[(str "User-Agent", UA)]] ∧
  ua_well_formed UA = false ∧
  UA = str "User-Agent: " ++ drop 12 UA ∧
  ua_well_formed (drop 12 UA) = true.
Proof.
  intros Hdir. split; [| by vm_compute].
  destruct (download_events url file_name w) as (es & Ht & _ & _ & _ & _ & Hh).
  simpl in Ht. rewrite Ht, sent_headers_app, Hh.
  by rewrite bool_decide_eq_false_2.
Qed.

(** ** Rejected configuration *)

(** C8: with both [binary_path] and [folder] set, [redownload] raises
    [ValueError] at once: the world, log included, is the one it was
    called in, so nothing was read, written, created or requested. *)
Theorem redownload_rejects_both_destinations
    (html_path : pystr) (extensions : list pystr) (folder binary_path : pystr)
    (html_folder : option pystr) (w : world) :
  redownload lh_parse unquote str_lower server html_path extensions
    (Some folder) (Some binary_path) html_folder w =
  (Raise (ValueError
     "Destination folder cannot be set because binary_path is set"), w).
Proof.
  unfold redownload, prepare_folders.
  unfold bind at 1. unfold bind at 1. unfold bind at 1.
  unfold raise. reflexivity.
Qed.

End Properties.


(** * Further properties of the module *)

Section Further.

Variable lh_parse : bytes → option (list element).
Variable unquote : pystr → pystr.
Variable str_lower : pystr → pystr.
Variable server : list event → pystr → reply.

(** ** [download] *)

(** X1: a download that runs to its end leaves at the destination
    exactly the response body, the chunks in order, whatever the file
    held before and whether or not the response declared a length; one
    request was sent and no directory was touched. *)
Theorem download_writes_body (url file_name : pystr) (len : length_header)
    (chunks : list bytes) (w : world) :
  file_name ∉ dirs w →
  (∀ t, server t url = Response len chunks) →
  length_ok len chunks = true →
  ∃ w', download server url file_name w = (Ret (), w') ∧
        files w' = <[file_name := concat chunks]> (files w) ∧
        dirs w' = dirs w ∧
        gets (trace w') = gets (trace w) ++ [url].
Proof.
  intros Hdir Hsrv Hlen.
  destruct (download_ok server url file_name len chunks w)
    as (w' & Hrun & Hf); [done .. |].
  destruct (download_events server url file_name w)
    as (es & Ht & Hd & _ & _ & Hg & _).
  rewrite Hrun in Ht, Hd. simpl in Ht, Hd.
  exists w'. split; [done |]. split; [done |]. split; [done |].
  rewrite Ht, gets_app, Hg. by rewrite bool_decide_eq_false_2.
Qed.

Lemma download_broken (url file_name : pystr) (w : world) :
  file_name ∉ dirs w →
  (∀ t, broken_reply (server t url) = true) →
  ∃ x w', download server url file_name w = (Raise x, w') ∧
          files w' = <[file_name := []]> (files w) ∧
          dirs w' = dirs w.
Proof.
  intros Hdir Hsrv.
  unfold download, open_write, print, requests_get, bind, log; simpl.
  rewrite bool_decide_eq_false_2 by done.
  match goal with |- context [server ?t url] =>
    specialize (Hsrv t); destruct (server t url) as [|[| |n] chunks] end;
    simpl in *; try done; by eexists _, _.
Qed.

(** X2: when the request fails, or the length header cannot be read,
    [download] raises with an empty file left at the destination; any
    later fetch of that destination then takes the empty file for a
    finished download: it ends as skipped-existing and sends no
    request, whatever the server would answer. *)
Theorem broken_download_blocks_retry
    (server' : list event → pystr → reply) (src dst : pystr)
    (enc : option pystr) (w : world) :
  dst ∉ dirs w →
  (∀ t, broken_reply (server t src) = true) →
  ∃ x w',
    download server src dst w = (Raise x, w') ∧
    files w' = <[dst := []]> (files w) ∧
    (fetch server' src dst enc w').1 = Ret SkippedExisting ∧
    files (fetch server' src dst enc w').2 = files w' ∧
    gets (trace (fetch server' src dst enc w').2) = gets (trace w').
Proof.
  intros Hdir Hsrv.
  destruct (download_broken src dst w Hdir Hsrv) as (x & w' & Hrun & Hf & _).
  exists x, w'. split; [done |]. split; [done |].
  rewrite (fetch_skips_existing server' src dst enc [])
    by (by rewrite ?Hf, ?lookup_insert_eq).
  simpl. by rewrite gets_app, app_nil_r.
Qed.

(** ** [is_html_file] *)

(** X3: a file shorter than the ten bytes of the declaration, the empty
    file included, is never taken for markup; the sniffer reports what
    it read. *)
Theorem short_file_not_markup (dst : pystr) (c : bytes) (w : world) :
  files w !! dst = Some c →
  (length c < 10)%nat →
  is_html_file dst w =
    (Ret false, add_events [EvRead dst 10; EvPrint (MsgNotDoctype c)] w).
Proof.
  intros Hc Hlen. rewrite (is_html_file_run dst c) by done.
  rewrite take_ge by lia.
  assert (is_doctype c = false) as ->; [| done].
  apply bool_decide_eq_false. intros Hpre%prefix_length.
  unfold bytes_upper in Hpre. rewrite length_fmap, DOCTYPE_length in Hpre. lia.
Qed.

(** ** The loop in single-destination mode *)

(** X4: with [binary_path] set, once [got] holds a file the rest of the
    loop only reports: no element makes it read, write, move, delete or
    request anything, and [got] stays as it is. *)
Theorem binary_path_fetches_once (dot_exts : list pystr)
    (folder : option pystr) (dst g : pystr) (elts : list element)
    (found : option pystr) (w : world) :
  g ≠ [] →
  ∃ es,
    scan unquote str_lower server dot_exts folder (Some dst) elts
      (ScanState (Some g) found) w =
    (Ret (ScanState (Some g) (last_found elts found)), add_events es w) ∧
    Forall (λ ev, ∃ m, ev = EvPrint m) es.
Proof.
  intros Hg. destruct g as [|a g]; [done |]. revert found w.
  induction elts as [|e elts IH]; intros found w; simpl.
  - exists []. by rewrite add_events_nil.
  - unfold bind at 1, scan_element.
    destruct (attrib e !! str "src") as [src|] eqn:Hsrc.
    + rewrite (last_found_cons_src e elts src) by done.
      destruct (wanted str_lower dot_exts src); simpl.
      * unfold fetch_reference. simpl.
        unfold print, bind, log, ret.
        destruct (IH (Some src)
                    (add_event (EvPrint (MsgAlreadyGot dst (a :: g))) w))
          as (es & -> & Hes).
        exists (EvPrint (MsgAlreadyGot dst (a :: g)) :: es).
        rewrite add_event_events, add_events_app. split; [done |].
        constructor; [by eexists | done].
      * unfold ret. destruct (IH (Some src) w) as (es & -> & Hes). by exists es.
    + rewrite (last_found_cons_none e elts) by done.
      destruct (bool_decide (tag e = str "source:")); simpl;
        unfold bind, print, log, ret.
      * destruct (IH found (add_event (EvPrint (MsgSrcNotIn e)) w))
          as (es & -> & Hes).
        exists (EvPrint (MsgSrcNotIn e) :: es).
        rewrite add_event_events, add_events_app. split; [done |].
        constructor; [by eexists | done].
      * destruct (IH found w) as (es & -> & Hes). by exists es.
Qed.

(** ** [redownload_all] *)

Lemma redownload_all_app (parent : pystr) (l1 l2 : list pystr) (w : world) :
  redownload_all lh_parse unquote str_lower server parent (l1 ++ l2) w =
  bind (redownload_all lh_parse unquote str_lower server parent l1)
       (λ _, redownload_all lh_parse unquote str_lower server parent l2) w.
Proof.
  revert w. induction l1 as [|sub l1 IH]; intros w; simpl; [done |].
  unfold bind.
  destruct (redownload_entry _ _ _ _ parent sub w) as [[[]|x] w1]; [| done].
  by rewrite IH.
Qed.

(** X5: entries that carry neither marker are only reported, one line
    each in listing order: the batch reads, moves and requests nothing
    for them, whatever the directory holds. *)
Theorem unmarked_entries_only_reported (parent : pystr)
    (entries : list pystr) (w : world) :
  Forall (λ sub, unmark sub = None) entries →
  redownload_all lh_parse unquote str_lower server parent entries w =
    (Ret (), add_events ((λ sub, EvPrint (MsgSkippingEntry sub)) <$> entries) w).
Proof.
  intros Hall. revert w.
  induction Hall as [|sub entries Hsub _ IH]; intros w; simpl.
  - by rewrite add_events_nil.
  - unfold bind, redownload_entry. unfold unmark in Hsub.
    destruct (startswith sub pseudo_protocol); [done |].
    destruct (startswith sub pseudo_colon); [done |].
    unfold print, log. rewrite IH.
    by rewrite add_event_events, add_events_app.
Qed.

(** X6: an entry under the one-character marker is renamed to the name
    without it, keeping its content and replacing any file of that
    name; the entry name is used as it is (not joined to [parent]), and
    the page is neither parsed nor fetched. *)
Theorem legacy_entry_renamed (parent n : pystr) (c : bytes) (w : world) :
  n ≠ [] →
  files w !! (pseudo_colon ++ n) = Some c →
  n ∉ dirs w →
  unmark (pseudo_colon ++ n) = Some n ∧
  redownload_entry lh_parse unquote str_lower server parent
    (pseudo_colon ++ n) w =
    (Ret (),
     set_files (<[n := c]> (delete (pseudo_colon ++ n) (files w)))
       (add_events [EvMove (pseudo_colon ++ n) n;
                    EvPrint (MsgMvEntry (pseudo_colon ++ n) n)] w)).
Proof.
  intros _ Hc Hdir.
  assert (startswith (pseudo_colon ++ n) pseudo_protocol = false) as Hno.
  { apply bool_decide_eq_false. by intros [k Hk]. }
  split.
  - unfold unmark. by rewrite Hno, startswith_app.
  - unfold redownload_entry. rewrite Hno, startswith_app.
    change (slice_from 1 (pseudo_colon ++ n)) with n.
    unfold move, print, bind, log; simpl. simpl in Hc. rewrite Hc.
    rewrite bool_decide_eq_false_2 by done.
    unfold set_files, add_events, add_event; simpl.
    by rewrite <- !app_assoc.
Qed.

(** X7: an exception raised for one entry ends the batch: the entries
    listed after it are not processed, and the world is the one in
    which the exception was raised. *)
Theorem batch_stops_at_exception (parent sub : pystr)
    (before after : list pystr) (x : exn) (w w1 w2 : world) :
  redownload_all lh_parse unquote str_lower server parent before w
    = (Ret (), w1) →
  redownload_entry lh_parse unquote str_lower server parent sub w1
    = (Raise x, w2) →
  redownload_all lh_parse unquote str_lower server parent
    (before ++ sub :: after) w = (Raise x, w2).
Proof.
  intros Hbefore Hsub. rewrite redownload_all_app.
  unfold bind at 1. rewrite Hbefore. simpl.
  unfold bind at 1. by rewrite Hsub.
Qed.

(** ** [undo] *)

Lemma undo_wanted_marked (sub : pystr) :
  undo_wanted str_lower (pseudo_protocol ++ sub) = false.
Proof.
  unfold undo_wanted. by rewrite startswith_app, andb_false_r.
Qed.

(** X8: [undo] renames a file whose lower-cased name ends in .mid and
    that is not marked yet to its marked name, keeping the content.
    The marked name is not marked a second time, and [redownload_all]
    takes it for a page to re-download. *)
Theorem undo_marks_once (parent sub : pystr) (c : bytes) (w : world) :
  undo_wanted str_lower sub = true →
  files w !! sub = Some c →
  mark sub ∉ dirs w →
  undo_entry str_lower sub w =
    (Ret (),
     set_files (<[mark sub := c]> (delete sub (files w)))
       (add_events [EvMove sub (mark sub)] w)) ∧
  (∀ w', undo_entry str_lower (mark sub) w' = (Ret (), w')) ∧
  (∀ w', redownload_entry lh_parse unquote str_lower server parent
           (mark sub) w' =
         redownload lh_parse unquote str_lower server
           (path_join parent (mark sub)) [str "mid"] None None None w').
Proof.
  intros Hwanted Hc Hdir. split; [| split].
  - unfold undo_entry. rewrite Hwanted. unfold move, bind, log; simpl.
    fold (mark sub). rewrite Hc. by rewrite bool_decide_eq_false_2.
  - intros w'. unfold undo_entry, mark. by rewrite undo_wanted_marked.
  - intros w'. unfold redownload_entry, mark. by rewrite startswith_app.
Qed.

Lemma undone_name_settled (sub : pystr) :
  undo_wanted str_lower (undone_name str_lower sub) = false.
Proof.
  unfold undone_name. destruct (undo_wanted str_lower sub) eqn:Hw; [| done].
  apply undo_wanted_marked.
Qed.

(** X9: a second pass of [undo] finds nothing to do: over the names
    that a first pass leaves behind it performs no operation at all,
    in any state of the directory. *)
Theorem undo_second_pass_idle (entries : list pystr) (w : world) :
  undo str_lower (undone_name str_lower <$> entries) w = (Ret (), w).
Proof.
  revert w. induction entries as [|sub entries IH]; intros w; simpl; [done |].
  unfold bind, undo_entry. rewrite undone_name_settled. simpl. apply IH.
Qed.

(** ** A page with one wanted reference *)

(** The page parses to elements of which exactly one, [e], carries a
    wanted reference [src]; [binary_path] is not set, and the folders
    are prepared in [w0].  Where a run writes a file, the decoded name
    is taken to have no separator and the archive folder to exist, so
    that every path written to has its parent. *)

Lemma prepared_world (folder binary_path html_folder : option pystr)
    (r : option pystr * pystr) (w w0 : world) :
  prepare_folders folder binary_path html_folder w = (Ret r, w0) →
  files w0 = files w ∧ gets (trace w0) = gets (trace w).
Proof.
  intros Hprep.
  destruct (prepare_folders_events folder binary_path html_folder w)
    as (es & Ht & Hf & Hp).
  rewrite Hprep in Ht, Hf. simpl in Ht, Hf. split; [done |].
  by rewrite Ht, gets_app, (plain_gets es Hp), app_nil_r.
Qed.

Lemma gets_skip_notes (elts : list element) (l : list event) :
  gets (skip_notes elts ++ l) = gets l.
Proof. by rewrite gets_app, (plain_gets _ (skip_notes_plain elts)). Qed.

Lemma single_reference_run (html_path : pystr) (page : bytes)
    (pre post : list element) (e : element) (src f h : pystr)
    (extensions : list pystr) (folder html_folder : option pystr)
    (w w0 : world) :
  files w !! html_path = Some page →
  lh_parse page = Some (pre ++ e :: post) →
  Forall (passed_over str_lower (dot_exts_of str_lower extensions)) pre →
  Forall (passed_over str_lower (dot_exts_of str_lower extensions)) post →
  attrib e !! str "src" = Some src →
  wanted str_lower (dot_exts_of str_lower extensions) src = true →
  prepare_folders folder None html_folder w = (Ret (Some f, h), w0) →
  redownload lh_parse unquote str_lower server html_path extensions
    folder None html_folder w =
  match fetch server src (dst_of unquote f src) (enc_of f src)
          (add_events (EvParse html_path :: skip_notes pre) w0) with
  | (Ret o, w2) =>
      finish html_path h
        (ScanState (got_after o src (enc_of f src) None)
           (last_found post (Some src)))
        (add_events (skip_notes post) w2)
  | (Raise x, w2) => (Raise x, w2)
  end.
Proof.
  intros Hpage Hparse Hpre Hpost Hsrc Hwanted Hprep.
  destruct (prepared_world _ _ _ _ _ _ Hprep) as [Hf _].
  unfold redownload. unfold bind at 1. rewrite Hprep.
  unfold bind at 1. unfold parse. unfold bind at 1, log at 1. simpl.
  rewrite Hf, Hpage, Hparse. unfold bind at 1.
  rewrite (scan_selects unquote str_lower server _ _ _ pre post e src)
    by done.
  rewrite add_event_events, add_events_app. simpl.
  unfold fetch_reference. unfold bind at 1.
  fold (encoded_name_of src). fold (dst_of unquote f src).
  change (if truthy (Some f)
          then Some (path_join (default [] (Some f)) (encoded_name_of src))
          else None) with (enc_of f src).
  destruct (fetch server src _ _ _) as [[o|x] w2]; [| done].
  reflexivity.
Qed.

Lemma gets_add_events (es : list event) (w : world) :
  gets (trace (add_events es w)) = gets (trace w) ++ gets es.
Proof. apply gets_app. Qed.

Lemma finish_idle (html_path h : pystr) (g found : option pystr) (w : world) :
  truthy g = false →
  ∃ tail, finish html_path h (ScanState g found) w =
            (Ret (), add_events tail w) ∧
          forallb plain tail = true.
Proof.
  intros Hg. unfold finish, when; simpl. rewrite Hg.
  unfold bind, ret, print, log.
  destruct (truthy found); simpl.
  - exists []. by rewrite add_events_nil.
  - by exists [EvPrint (MsgNoSource html_path)].
Qed.


(** X10: the destination already holds a file that is not markup.  The
    run ends normally with the file system exactly as it was: nothing
    is requested, and the page stays where it is. *)
Theorem settled_run_changes_nothing (html_path : pystr) (page c : bytes)
    (pre post : list element) (e : element) (src f h : pystr)
    (extensions : list pystr) (folder html_folder : option pystr)
    (w w0 : world) :
  files w !! html_path = Some page →
  lh_parse page = Some (pre ++ e :: post) →
  Forall (passed_over str_lower (dot_exts_of str_lower extensions)) pre →
  Forall (passed_over str_lower (dot_exts_of str_lower extensions)) post →
  attrib e !! str "src" = Some src →
  wanted str_lower (dot_exts_of str_lower extensions) src = true →
  prepare_folders folder None html_folder w = (Ret (Some f, h), w0) →
  files w !! dst_of unquote f src = Some c →
  is_doctype (take 10 c) = false →
  ∃ w',
    redownload lh_parse unquote str_lower server html_path extensions
      folder None html_folder w = (Ret (), w') ∧
    files w' = files w ∧
    gets (trace w') = gets (trace w).
Proof.
  intros Hpage Hparse Hpre Hpost Hsrc Hwanted Hprep Hc Hsniff.
  destruct (prepared_world _ _ _ _ _ _ Hprep) as [Hf Hg].
  rewrite (single_reference_run html_path page pre post e src f h
             extensions folder html_folder w w0) by done.
  rewrite (fetch_skips_existing server src _ _ c) by (simpl; by rewrite ?Hf).
  simpl got_after.
  destruct (finish_idle html_path h None (last_found post (Some src))
              (add_events (skip_notes post)
                 (add_events
                    [EvIsFile (dst_of unquote f src);
                     EvRead (dst_of unquote f src) 10;
                     EvPrint (MsgNotDoctype (take 10 c));
                     EvPrint (MsgSkippingExisting (dst_of unquote f src))]
                    (add_events (EvParse html_path :: skip_notes pre) w0))))
    as (tail & -> & Hp); [done |].
  eexists. split; [done |]. split; [done |].
  rewrite !gets_add_events, Hg, (plain_gets tail Hp).
  rewrite (plain_gets _ (skip_notes_plain post)).
  change (gets (EvParse html_path :: ?l)) with (gets l).
  rewrite (plain_gets _ (skip_notes_plain pre)).
  by rewrite !app_nil_r.
Qed.

Lemma fresh_download_run (src dst : pystr) (enc : option pystr)
    (len : length_header) (chunks : list bytes) (w : world) :
  files w !! dst = None →
  no_leftover enc w →
  dst ∉ dirs w →
  (∀ t, server t src = Response len chunks) →
  length_ok len chunks = true →
  ∃ w2,
    fetch server src dst enc w =
      (Ret (if is_doctype (take 10 (concat chunks))
            then FailedHtmlAgain else Downloaded), w2) ∧
    files w2 =
      (if is_doctype (take 10 (concat chunks))
       then files w else <[dst := concat chunks]> (files w)) ∧
    dirs w2 = dirs w ∧
    gets (trace w2) = gets (trace w) ++ [src].
Proof.
  intros Hc Hno Hdir Hsrv Hlen.
  rewrite fetch_absent by done.
  rewrite attempt_downloads by done.
  destruct (download_branch_result server src dst len chunks
              (add_events (if truthy enc then [EvIsFile (default [] enc)]
                           else [])
                 (add_events [EvIsFile dst] w)))
    as (w2 & Hrun & Hf); [done .. |].
  pose proof Hrun as (es & Ht & Hd & Hg & _)%download_branch_events.
  rewrite bool_decide_eq_false_2 in Hg by done.
  exists w2. split; [done |]. split; [| split].
  - rewrite Hf. simpl. destruct (is_doctype _); [| done].
    by apply delete_id.
  - by rewrite Hd.
  - rewrite Ht, gets_app, Hg. simpl.
    rewrite !gets_app. destruct (truthy enc); simpl; by rewrite !app_nil_r.
Qed.

(** X11: the destination is absent, there is no leftover, and the
    server answers the wanted URL with markup.  The run ends normally
    after one request with the file system exactly as it was: what was
    downloaded is deleted again and the page is not archived, so a
    later run retries. *)
Theorem markup_reply_changes_nothing (html_path : pystr) (page : bytes)
    (pre post : list element) (e : element) (src f h : pystr)
    (extensions : list pystr) (folder html_folder : option pystr)
    (len : length_header) (chunks : list bytes) (w w0 : world) :
  files w !! html_path = Some page →
  lh_parse page = Some (pre ++ e :: post) →
  Forall (passed_over str_lower (dot_exts_of str_lower extensions)) pre →
  Forall (passed_over str_lower (dot_exts_of str_lower extensions)) post →
  attrib e !! str "src" = Some src →
  wanted str_lower (dot_exts_of str_lower extensions) src = true →
  prepare_folders folder None html_folder w = (Ret (Some f, h), w0) →
  sep ∉ unquote (encoded_name_of src) →
  files w !! dst_of unquote f src = None →
  no_leftover (enc_of f src) w →
  dst_of unquote f src ∉ dirs w0 →
  (∀ t, server t src = Response len chunks) →
  length_ok len chunks = true →
  is_doctype (take 10 (concat chunks)) = true →
  ∃ w',
    redownload lh_parse unquote str_lower server html_path extensions
      folder None html_folder w = (Ret (), w') ∧
    files w' = files w ∧
    gets (trace w') = gets (trace w) ++ [src].
Proof.
  intros Hpage Hparse Hpre Hpost Hsrc Hwanted Hprep _ Hc Hno Hdir Hsrv Hlen
    Hsniff.
  destruct (prepared_world _ _ _ _ _ _ Hprep) as [Hf Hg].
  rewrite (single_reference_run html_path page pre post e src f h
             extensions folder html_folder w w0) by done.
  destruct (fresh_download_run src (dst_of unquote f src) (enc_of f src)
              len chunks
              (add_events (EvParse html_path :: skip_notes pre) w0))
    as (w2 & Hrun & Hf2 & Hd2 & Hg2).
  { simpl. by rewrite Hf. }
  { destruct Hno as [? | Hno]; [by left | right]. simpl. by rewrite Hf. }
  { done. }
  { done. }
  { done. }
  rewrite Hrun, Hsniff. simpl got_after.
  rewrite Hsniff in Hf2. simpl in Hf2.
  destruct (finish_idle html_path h None (last_found post (Some src))
              (add_events (skip_notes post) w2)) as (tail & -> & Hp);
    [done |].
  eexists. split; [done |]. split; [simpl; by rewrite Hf2 |].
  rewrite !gets_add_events, Hg2, gets_add_events, Hg, (plain_gets tail Hp).
  rewrite (plain_gets _ (skip_notes_plain post)).
  change (gets (EvParse html_path :: ?l)) with (gets l).
  rewrite (plain_gets _ (skip_notes_plain pre)).
  by rewrite !app_nil_r.
Qed.




(** ** Folder preparation *)

(** X14: when the name of the destination folder is taken by a regular
    file, the run raises FileExistsError while creating the folder:
    the page is not parsed and nothing is requested, moved or
    written. *)
Theorem folder_name_taken (html_path : pystr) (extensions : list pystr)
    (folder html_folder : option pystr) (c : bytes) (w : world) :
  default (str "media") folder ≠ [] →
  files w !! default (str "media") folder = Some c →
  default (str "media") folder ∉ dirs w →
  redownload lh_parse unquote str_lower server html_path extensions
    folder None html_folder w =
    (Raise (FileExistsError (default (str "media") folder)),
     add_events [EvIsDir (default (str "media") folder);
                 EvMakedirs (default (str "media") folder)] w).
Proof.
  intros Hne Hc Hdir.
  unfold redownload, prepare_folders, isdir, makedirs, when, bind, log; simpl.
  rewrite bool_decide_eq_false_2 by done. simpl.
  rewrite bool_decide_eq_false_2 by done.
  rewrite Hc. simpl.
  unfold add_events, add_event; simpl. by rewrite <- !app_assoc.
Qed.

End Further.

(** * The sample directory *)

Lemma ascii_lower_empty : ascii_lower [] = [].
Proof. reflexivity. Qed.

Lemma ascii_lower_mid : ascii_lower (str "mid") = str "mid".
Proof. reflexivity. Qed.

Lemma sample_sub_flat : sep ∉ sample_sub.
Proof. apply (bool_decide_eq_false (sep ∈ sample_sub)). by vm_compute. Qed.

(** The MIDI file is already in media/: the fetch ends as
    skipped-existing, the run returns normally, nothing is moved, and
    the page is still under its marked name and not in html/. *)
Lemma skipped_existing_not_archived :
  (sample_entry settled_world).1 = Ret () ∧
  outcomes (trace (sample_entry settled_world).2) = [SkippedExisting] ∧
  moves (trace (sample_entry settled_world).2) = [] ∧
  files (sample_entry settled_world).2 !! sample_path = Some sample_page ∧
  files (sample_entry settled_world).2 !! path_join (str "html") sample_sub
    = None.
Proof. vm_compute. repeat split; reflexivity. Qed.

Lemma archived_when_acquired_witness :
  outcomes (trace fresh_scanned) = [Downloaded] ∧
  (sample_entry fresh_world).1 = Ret () ∧
  files (sample_entry fresh_world).2 =
    <[path_join (str "html") sample_sub := sample_page]>
      (delete (path_join sample_parent sample_sub) (files fresh_scanned)).
Proof.
  destruct (archived_when_acquired sample_parse plain_unquote ascii_lower
              sample_server ascii_lower_empty sample_parent sample_sub
              fresh_world fresh_prepared fresh_parsed fresh_scanned
              (Some (str "media"), str "html")
              sample_doc (ScanState (Some sample_mid) (Some sample_mid)))
    as (os & Ho & Harch & _).
  - exact sample_sub_flat.
  - by vm_compute.
  - unfold fresh_prepared. apply run_eq. by vm_compute.
  - unfold fresh_parsed. apply run_eq. by vm_compute.
  - unfold fresh_scanned. apply run_eq. by vm_compute.
  - vm_compute in Ho. subst os.
    split; [by vm_compute |].
    apply (Harch eq_refl sample_page).
    + by vm_compute.
    + apply (bool_decide_eq_false (_ ∈ _)). by vm_compute.
Defined.

(** Destination folder and archive folder both set to out: the run
    returns normally, with the MIDI file and the page side by side in
    out/. *)
Lemma same_folder_runs :
  (sample_redownload (Some (str "out")) None (Some (str "out")) fresh_world).1
    = Ret () ∧
  files (sample_redownload (Some (str "out")) None (Some (str "out"))
           fresh_world).2 !! str "out/2-3_guajeo.mid" = Some sample_midi ∧
  files (sample_redownload (Some (str "out")) None (Some (str "out"))
           fresh_world).2 !! (str "out/" ++ sample_sub) = Some sample_page.
Proof. vm_compute. repeat split; reflexivity. Qed.

Lemma same_folder_accepted_witness :
  ∃ w', prepare_folders (Some (str "out")) None (Some (str "out")) fresh_world
          = (Ret (Some (str "out"), str "out"), w') ∧
        str "out" ∈ dirs w'.
Proof.
  destruct (same_folder_accepted sample_parse plain_unquote ascii_lower
              sample_server sample_path (str "out") [str "mid"] fresh_world)
    as (w' & Hprep & _ & Hdir & _).
  - done.
  - by vm_compute.
  - exists w'. split; [exact Hprep | exact Hdir].
Defined.

Lemma scan_selects_mid_witness :
  refs sample_doc = [sample_mp3; sample_ogg; sample_mid] ∧
  wanted ascii_lower (dot_exts_of ascii_lower [str "mid"]) sample_mid = true ∧
  wanted ascii_lower (dot_exts_of ascii_lower [str "mid"]) sample_mp3 = false ∧
  wanted ascii_lower (dot_exts_of ascii_lower [str "mid"]) sample_ogg = false.
Proof.
  destruct (scan_selects_mid plain_unquote ascii_lower sample_server
              ascii_lower_mid sample_doc sample_mp3 sample_ogg sample_mid
              (Some (str "media")) None fresh_world)
    as (Hmid & Hmp3 & Hogg & _).
  - by vm_compute.
  - by vm_compute.
  - by vm_compute.
  - by vm_compute.
  - split; [by vm_compute |].
    split; [exact Hmid |]. split; [exact Hmp3 | exact Hogg].
Defined.

Lemma fetch_decision_order_witness :
  (fetch sample_server sample_mid sample_dst (Some sample_dst)
     settled_world).1 = Ret SkippedExisting ∧
  gets (trace (fetch sample_server sample_mid sample_dst (Some sample_dst)
                 settled_world).2) = gets (trace settled_world) ∧
  (attempt sample_server sample_mid sample_dst (Some sample_dst)
     fresh_world).1 = Ret Downloaded ∧
  gets (trace (attempt sample_server sample_mid sample_dst (Some sample_dst)
                 fresh_world).2) = gets (trace fresh_world) ++ [sample_mid].
Proof.
  destruct (fetch_decision_order sample_server sample_mid sample_dst
              (Some sample_dst) settled_world)
    as (Hkeep & _ & _ & _ & Hget & Hbody & _).
  destruct (Hkeep sample_midi) as (Hout & _ & Hquiet); [by vm_compute .. |].
  assert (Hdir : sample_dst ∉ dirs fresh_world)
    by (apply (bool_decide_eq_false (_ ∈ _)); by vm_compute).
  assert (Hno : no_leftover (Some sample_dst) fresh_world)
    by (right; by vm_compute).
  destruct (Hget fresh_world Hdir Hno) as [Hone _].
  destruct (Hbody fresh_world NoLength [sample_midi] Hdir Hno) as [Hdown _];
    [reflexivity .. |].
  split; [exact Hout |]. split; [exact Hquiet |].
  split; [exact Hdown | exact Hone].
Defined.

Lemma no_reference_nothing_moved_witness :
  refs bare_doc = [] ∧
  files (sample_redownload None None None bare_world).2 = files bare_world ∧
  moves (trace (sample_redownload None None None bare_world).2) =
    moves (trace bare_world) ∧
  sample_redownload None None None bare_world =
    (Ret (),
     add_events (EvParse sample_path :: skip_notes bare_doc ++
                 [EvPrint (MsgNoSource sample_path)])
       (prepare_folders None None None bare_world).2).
Proof.
  destruct (no_reference_nothing_moved sample_parse plain_unquote ascii_lower
              sample_server sample_path bare_page bare_doc [str "mid"]
              None None None bare_world)
    as (_ & Hfiles & Hmoves & Hrun); [by vm_compute .. |].
  split; [reflexivity |]. split; [exact Hfiles |]. split; [exact Hmoves |].
  apply (Hrun (Some (str "media"), str "html")). apply run_eq. by vm_compute.
Defined.

Lemma empty_reference_reported_as_none_witness :
  refs empty_src_doc = [[]] ∧
  sample_redownload None None None empty_src_world =
    (Ret (),
     add_events (EvParse sample_path :: skip_notes empty_src_doc ++
                 [EvPrint (MsgNoSource sample_path)])
       (prepare_folders None None None empty_src_world).2).
Proof.
  destruct (empty_reference_reported_as_none sample_parse plain_unquote
              ascii_lower sample_server ascii_lower_empty sample_path
              empty_src_page empty_src_doc [str "mid"] None None None
              empty_src_world)
    as (_ & Hrun); [by vm_compute .. | |].
  { vm_compute. by repeat constructor. }
  split; [by vm_compute |].
  apply (Hrun (Some (str "media"), str "html")). apply run_eq. by vm_compute.
Defined.

Lemma user_agent_value_repeats_header_name_witness :
  sent_headers (trace (download sample_server sample_mid sample_dst
                         fresh_world).2) =
    sent_headers (trace fresh_world) ++ [[(str "User-Agent", UA)]] ∧
  ua_well_formed UA = false.
Proof.
  destruct (user_agent_value_repeats_header_name sample_server sample_mid
              sample_dst fresh_world) as (Hsent & Hbad & _).
  - apply (bool_decide_eq_false (_ ∈ _)). by vm_compute.
  - split; [exact Hsent | exact Hbad].
Defined.

(** * Further runs on the sample directory *)

Ltac not_in_dirs := apply (bool_decide_eq_false (_ ∈ _)); by vm_compute.

(** Every element of a concrete list is passed over: it has no src, or
    its src has an extension that is not wanted. *)
Ltac all_passed_over :=
  repeat (constructor;
          [let src := fresh "src" in
           let H := fresh "H" in
           intros src H; vm_compute in H;
           first [discriminate H
                 | injection H as <-; by vm_compute] |]);
  constructor.

Lemma download_writes_body_witness :
  ∃ w', download chunked_server sample_mid sample_dst settled_world
          = (Ret (), w') ∧
        files w' =
          <[sample_dst := concat [sample_midi; sample_midi]]>
            (files settled_world) ∧
        dirs w' = dirs settled_world ∧
        gets (trace w') = gets (trace settled_world) ++ [sample_mid].
Proof.
  apply (download_writes_body chunked_server sample_mid sample_dst
           (Length 8) [sample_midi; sample_midi] settled_world).
  - not_in_dirs.
  - done.
  - by vm_compute.
Defined.

Lemma broken_download_blocks_retry_witness :
  ∃ x w',
    download failing_server sample_mid sample_dst fresh_world
      = (Raise x, w') ∧
    files w' = <[sample_dst := []]> (files fresh_world) ∧
    (fetch sample_server sample_mid sample_dst (Some sample_dst) w').1
      = Ret SkippedExisting ∧
    files (fetch sample_server sample_mid sample_dst (Some sample_dst) w').2
      = files w' ∧
    gets (trace (fetch sample_server sample_mid sample_dst (Some sample_dst)
                   w').2) = gets (trace w').
Proof.
  apply (broken_download_blocks_retry failing_server sample_server
           sample_mid sample_dst (Some sample_dst) fresh_world).
  - not_in_dirs.
  - done.
Defined.

Lemma short_file_not_markup_witness :
  is_html_file sample_dst settled_world =
    (Ret false,
     add_events [EvRead sample_dst 10; EvPrint (MsgNotDoctype sample_midi)]
       settled_world).
Proof.
  apply (short_file_not_markup sample_dst sample_midi settled_world).
  - by vm_compute.
  - vm_compute. lia.
Defined.

Lemma binary_path_fetches_once_witness :
  ∃ es,
    scan plain_unquote ascii_lower sample_server
      (dot_exts_of ascii_lower [str "mid"]) None (Some (str "song.mid"))
      sample_doc (ScanState (Some sample_mp3) None) fresh_world =
    (Ret (ScanState (Some sample_mp3) (last_found sample_doc None)),
     add_events es fresh_world) ∧
    Forall (λ ev, ∃ m, ev = EvPrint m) es.
Proof.
  apply (binary_path_fetches_once plain_unquote ascii_lower sample_server
           (dot_exts_of ascii_lower [str "mid"]) None (str "song.mid")
           sample_mp3 sample_doc None fresh_world).
  done.
Defined.

Lemma unmarked_entries_only_reported_witness :
  redownload_all sample_parse plain_unquote ascii_lower sample_server
    sample_parent plain_listing fresh_world =
    (Ret (),
     add_events ((λ sub, EvPrint (MsgSkippingEntry sub)) <$> plain_listing)
       fresh_world).
Proof.
  apply (unmarked_entries_only_reported sample_parse plain_unquote
           ascii_lower sample_server sample_parent plain_listing fresh_world).
  repeat constructor.
Defined.

Lemma legacy_entry_renamed_witness :
  unmark (pseudo_colon ++ sample_name) = Some sample_name ∧
  redownload_entry sample_parse plain_unquote ascii_lower sample_server
    sample_parent (pseudo_colon ++ sample_name) legacy_world =
    (Ret (),
     set_files (<[sample_name := sample_midi]>
                  (delete (pseudo_colon ++ sample_name) (files legacy_world)))
       (add_events [EvMove (pseudo_colon ++ sample_name) sample_name;
                    EvPrint (MsgMvEntry (pseudo_colon ++ sample_name)
                               sample_name)] legacy_world)).
Proof.
  apply (legacy_entry_renamed sample_parse plain_unquote ascii_lower
           sample_server sample_parent sample_name sample_midi legacy_world).
  - done.
  - by vm_compute.
  - not_in_dirs.
Defined.

Lemma batch_stops_at_exception_witness :
  redownload_all sample_parse plain_unquote ascii_lower sample_server
    sample_parent (plain_listing ++ missing_entry :: [sample_sub])
    fresh_world =
    (Raise (FileNotFoundError missing_entry),
     (redownload_entry sample_parse plain_unquote ascii_lower sample_server
        sample_parent missing_entry
        (redownload_all sample_parse plain_unquote ascii_lower sample_server
           sample_parent plain_listing fresh_world).2).2).
Proof.
  apply (batch_stops_at_exception sample_parse plain_unquote ascii_lower
           sample_server sample_parent missing_entry plain_listing
           [sample_sub] (FileNotFoundError missing_entry) fresh_world
           (redownload_all sample_parse plain_unquote ascii_lower
              sample_server sample_parent plain_listing fresh_world).2).
  - apply run_eq. by vm_compute.
  - apply run_eq. by vm_compute.
Defined.

Lemma undo_marks_once_witness :
  undo_entry ascii_lower sample_name unmarked_world =
    (Ret (),
     set_files (<[mark sample_name := sample_page]>
                  (delete sample_name (files unmarked_world)))
       (add_events [EvMove sample_name (mark sample_name)] unmarked_world)) ∧
  (∀ w', undo_entry ascii_lower (mark sample_name) w' = (Ret (), w')) ∧
  (∀ w', redownload_entry sample_parse plain_unquote ascii_lower
           sample_server sample_parent (mark sample_name) w' =
         redownload sample_parse plain_unquote ascii_lower sample_server
           (path_join sample_parent (mark sample_name)) [str "mid"]
           None None None w').
Proof.
  apply (undo_marks_once sample_parse plain_unquote ascii_lower sample_server
           sample_parent sample_name sample_page unmarked_world).
  - by vm_compute.
  - by vm_compute.
  - not_in_dirs.
Defined.

Lemma settled_run_changes_nothing_witness :
  ∃ w',
    redownload sample_parse plain_unquote ascii_lower sample_server
      sample_path [str "mid"] None None None settled_world = (Ret (), w') ∧
    files w' = files settled_world ∧
    gets (trace w') = gets (trace settled_world).
Proof.
  apply (settled_run_changes_nothing sample_parse plain_unquote ascii_lower
           sample_server sample_path sample_page sample_midi sample_pre []
           (source_elt sample_mid) sample_mid (str "media") (str "html")
           [str "mid"] None None settled_world
           (prepare_folders None None None settled_world).2).
  - by vm_compute.
  - by vm_compute.
  - all_passed_over.
  - constructor.
  - by vm_compute.
  - by vm_compute.
  - apply run_eq. by vm_compute.
  - by vm_compute.
  - by vm_compute.
Defined.

Lemma markup_reply_changes_nothing_witness :
  ∃ w',
    redownload sample_parse plain_unquote ascii_lower markup_server
      sample_path [str "mid"] None None None fresh_world = (Ret (), w') ∧
    files w' = files fresh_world ∧
    gets (trace w') = gets (trace fresh_world) ++ [sample_mid].
Proof.
  apply (markup_reply_changes_nothing sample_parse plain_unquote ascii_lower
           markup_server sample_path sample_page sample_pre []
           (source_elt sample_mid) sample_mid (str "media") (str "html")
           [str "mid"] None None NoLength [sample_page] fresh_world
           fresh_prepared).
  - by vm_compute.
  - by vm_compute.
  - all_passed_over.
  - constructor.
  - by vm_compute.
  - by vm_compute.
  - unfold fresh_prepared. apply run_eq. by vm_compute.
  - not_in_dirs.
  - by vm_compute.
  - right. by vm_compute.
  - not_in_dirs.
  - done.
  - done.
  - by vm_compute.
Defined.



Lemma folder_name_taken_witness :
  redownload sample_parse plain_unquote ascii_lower sample_server
    sample_path [str "mid"] None None None taken_world =
    (Raise (FileExistsError (default (str "media") None)),
     add_events [EvIsDir (default (str "media") None);
                 EvMakedirs (default (str "media") None)] taken_world).
Proof.
  apply (folder_name_taken sample_parse plain_unquote ascii_lower
           sample_server sample_path [str "mid"] None None sample_midi
           taken_world).
  - done.
  - by vm_compute.
  - not_in_dirs.
Defined.
